(** * vc-frontend: the profile browser of [src/App.tsx]

    A shallow embedding of the [App] component: its six state variables, the
    event handlers [handleSubmit], [goToPrevious], [goToNext] and
    [exportToExcel], the gating of the controls by the rendered markup, and
    the rendering of one experience record.

    How the TypeScript is read:
    - the value returned by [response.json()] has type [any]; it is kept as
      an untyped JavaScript value ([JsVal]), and so is every element of the
      stored profile list, because [setProfiles] stores whatever arrives;
    - a handler is a computation over the pending component state that can
      emit effects (toasts, the fetch, the file download) and can throw;
      what a handler reads of the state it reads from the render it was
      created in, which is passed as the argument [rendered];
    - the async [handleSubmit] is cut at its suspension point: the part run
      by the submit event ([handleSubmit]) and the part run when the request
      settles ([handleSubmit_resume]);
    - each of these parts runs to completion before the next event is
      handled, and the state it leaves is the state of the next render. *)

From Stdlib Require Import QArith.
From stdpp Require Import base option list strings gmap.

Local Set Warnings "-register-all".
Local Open Scope string_scope.
Local Open Scope list_scope.
Local Open Scope Z_scope.

(** ** JavaScript values *)

Module Js.

(** JSON values as [JSON.parse] delivers them, and [undefined]. *)
Inductive JsVal : Type :=
  | JUndefined
  | JNull
  | JBool (b : bool)
  | JNum (q : Q)
  | JStr (s : string)
  | JArr (xs : list JsVal)
  | JObj (fields : gmap string JsVal).

(** [ToBoolean]: what [if (v)], [!v], [v && _] and [v || _] test. *)
Definition truthy (v : JsVal) : bool :=
  match v with
  | JUndefined | JNull => false
  | JBool b => b
  | JNum q => negb (Qnum q =? 0)
  | JStr s => negb (String.eqb s "")
  | JArr _ | JObj _ => true
  end.

(** [a || b] *)
Definition or (a b : JsVal) : JsVal := if truthy a then a else b.

(** [v.k] for a key [k] that no prototype defines: a [TypeError] ([None])
    on [undefined] and [null], the member or [undefined] on an object,
    [undefined] on every other value. *)
Definition prop (v : JsVal) (k : string) : option JsVal :=
  match v with
  | JUndefined | JNull => None
  | JObj fields => Some (default JUndefined (fields !! k))
  | _ => Some JUndefined
  end.

End Js.
Export Js.

(** ** Component state and effects *)

(** The six [useState] cells of [App]. [currentProfileIndex] only ever holds
    0 and results of adding or subtracting 1 below the length of an array,
    so it is an integer; [maxProfiles] is [Number(e.target.value)]. *)
Record AppState : Type := mkState {
  linkedinUrl : string;
  sessionCookie : string;
  maxProfiles : Q;
  isRunning : bool;
  profiles : list JsVal;
  currentProfileIndex : Z;
}.

Definition initialState : AppState :=
  {| linkedinUrl := ""; sessionCookie := ""; maxProfiles := 1%Q;
     isRunning := false; profiles := []; currentProfileIndex := 0 |}.

(** The body of the POST request, before [JSON.stringify]. *)
Record ScrapeRequest : Type := mkRequest {
  url : string;
  session_cookie : string;
  limit : Q;
}.

(** One row object of the export and the SheetJS values built from the rows.
    SheetJS is an external library: a worksheet is kept as the row objects it
    was made from, a workbook as its named sheets in the order appended. *)
Definition Row : Type := list (string * JsVal).
Record Worksheet : Type := mkSheet { sheet_rows : list Row }.
Definition Workbook : Type := list (string * Worksheet).

Module XLSX.
Definition json_to_sheet (rows : list Row) : Worksheet := mkSheet rows.
Definition book_new : Workbook := [].
Definition book_append_sheet (wb : Workbook) (ws : Worksheet) (name : string)
  : Workbook := wb ++ [(name, ws)].
End XLSX.

Inductive Effect : Type :=
  | ToastError (msg : JsVal)
  | ToastSuccess (msg : JsVal)
  | Fetch (endpoint : string) (body : ScrapeRequest)
  | ConsoleLog (v : JsVal)
  | ConsoleError
  | WriteFile (wb : Workbook) (filename : string).

(** ** Handler computations *)

(** A handler maps the pending state to a result ([None] when it threw), the
    new pending state and the effects emitted, oldest first. *)
Definition M (A : Type) : Type := AppState → option A * AppState * list Effect.

Definition ret {A} (a : A) : M A := λ s, (Some a, s, []).

Definition bind {A B} (c : M A) (k : A → M B) : M B := λ s,
  match c s with
  | (Some a, s1, es1) => let '(r, s2, es2) := k a s1 in (r, s2, es1 ++ es2)
  | (None, s1, es1) => (None, s1, es1)
  end.

Definition throw {A} : M A := λ s, (None, s, []).

Definition emit (e : Effect) : M unit := λ s, (Some tt, s, [e]).

Definition update (f : AppState → AppState) : M unit := λ s, (Some tt, f s, []).

(** [try { body } catch { handler }] *)
Definition try_catch {A} (body handler : M A) : M A := λ s,
  match body s with
  | (None, s1, es1) => let '(r, s2, es2) := handler s1 in (r, s2, es1 ++ es2)
  | finished => finished
  end.

(** [try { body } finally { fin }] *)
Definition try_finally {A} (body : M A) (fin : M unit) : M A := λ s,
  let '(r, s1, es1) := body s in
  match fin s1 with
  | (Some _, s2, es2) => (r, s2, es1 ++ es2)
  | (None, s2, es2) => (None, s2, es1 ++ es2)
  end.

(** A property read or another partial step inside a handler. *)
Definition lift {A} (o : option A) : M A :=
  match o with Some a => ret a | None => throw end.

Notation "x <- c ;; k" := (bind c (λ x, k))
  (at level 100, c at next level, right associativity).
Notation "c ;;; k" := (bind c (λ _, k))
  (at level 100, right associativity).

(** The state setters. A setter given a value replaces the cell; the index
    setter is also used with an updater function, applied to the pending
    value. *)
Definition setLinkedinUrl (v : string) : M unit :=
  update (λ s, mkState v (sessionCookie s) (maxProfiles s) (isRunning s)
                       (profiles s) (currentProfileIndex s)).
Definition setSessionCookie (v : string) : M unit :=
  update (λ s, mkState (linkedinUrl s) v (maxProfiles s) (isRunning s)
                       (profiles s) (currentProfileIndex s)).
Definition setMaxProfiles (v : Q) : M unit :=
  update (λ s, mkState (linkedinUrl s) (sessionCookie s) v (isRunning s)
                       (profiles s) (currentProfileIndex s)).
Definition setIsRunning (v : bool) : M unit :=
  update (λ s, mkState (linkedinUrl s) (sessionCookie s) (maxProfiles s) v
                       (profiles s) (currentProfileIndex s)).
Definition setProfiles (v : list JsVal) : M unit :=
  update (λ s, mkState (linkedinUrl s) (sessionCookie s) (maxProfiles s)
                       (isRunning s) v (currentProfileIndex s)).
Definition setCurrentProfileIndex (f : Z → Z) : M unit :=
  update (λ s, mkState (linkedinUrl s) (sessionCookie s) (maxProfiles s)
                       (isRunning s) (profiles s) (f (currentProfileIndex s))).

Definition toast_error (msg : JsVal) : M unit := emit (ToastError msg).
Definition toast_success (msg : JsVal) : M unit := emit (ToastSuccess msg).

(** ** The handlers of [App] *)

Definition endpoint : string := "http://127.0.0.1:8000/linkedin/scrape_by_url".

(** [handleSubmit] up to [await fetch(...)]. [!linkedinUrl] is true exactly
    for the empty string. [e.preventDefault()] only keeps the browser from
    reloading the page and is left out. *)
Definition handleSubmit (rendered : AppState) : M unit :=
  if String.eqb (linkedinUrl rendered) "" || String.eqb (sessionCookie rendered) ""
  then toast_error (JStr "Please fill in all required fields")
  else
    setIsRunning true ;;;
    emit (Fetch endpoint
            {| url := linkedinUrl rendered;
               session_cookie := sessionCookie rendered;
               limit := maxProfiles rendered |}).

(** How the two awaited promises settle: [fetch] rejects (no connection),
    [response.json()] rejects (the body is not JSON), or it resolves. *)
Inductive FetchOutcome : Type :=
  | FetchRejected
  | JsonRejected
  | JsonResolved (data : JsVal).

Definition awaited (o : FetchOutcome) : M JsVal :=
  match o with
  | FetchRejected | JsonRejected => throw
  | JsonResolved data => ret data
  end.

(** [Array.isArray(data.profile) ? data.profile : [data.profile]]: only an
    array passes [Array.isArray]. *)
Definition profileList (p : JsVal) : list JsVal :=
  match p with JArr xs => xs | _ => [p] end.

(** [handleSubmit] from the point where the request settles: the rest of the
    [try] block, its [catch] and its [finally]. *)
Definition handleSubmit_resume (o : FetchOutcome) : M unit :=
  try_finally
    (try_catch
       (data <- awaited o ;;
        emit (ConsoleLog data) ;;;
        error <- lift (prop data "error") ;;
        if truthy error then toast_error error
        else
          profile <- lift (prop data "profile") ;;
          setProfiles (profileList profile) ;;;
          setCurrentProfileIndex (λ _, 0) ;;;
          toast_success (JStr "Profiles scraped successfully!"))
       (toast_error (JStr "Failed to scrape profiles") ;;;
        emit ConsoleError))
    (setIsRunning false).

Definition goToPrevious : M unit :=
  setCurrentProfileIndex (λ prevIndex,
    if prevIndex >? 0 then prevIndex - 1 else prevIndex).

Definition goToNext (rendered : AppState) : M unit :=
  setCurrentProfileIndex (λ prevIndex,
    if prevIndex <? Z.of_nat (length (profiles rendered)) - 1
    then prevIndex + 1 else prevIndex).

(** The callback of [profiles.map] in [exportToExcel]. *)
Definition exportRow (profile : JsVal) : option Row :=
  name ← prop profile "name";
  profile_url ← prop profile "profile_url";
  title ← prop profile "title";
  location ← prop profile "location";
  Some [("name", Js.or name (JStr ""));
        ("profile_url", Js.or profile_url (JStr ""));
        ("title", Js.or title (JStr ""));
        ("location", Js.or location (JStr ""))].

Definition exportToExcel (rendered : AppState) : M unit :=
  if (length (profiles rendered) =? 0)%nat
  then toast_error (JStr "No profiles to export")
  else
    exportData <- lift (mapM exportRow (profiles rendered)) ;;
    let worksheet := XLSX.json_to_sheet exportData in
    let workbook := XLSX.book_new in
    let workbook := XLSX.book_append_sheet workbook worksheet "Profiles" in
    emit (WriteFile workbook "profiles.xlsx").

(** Running a handler created in the render of [s] on the state [s]. *)
Definition stateAfter (h : M unit) (s : AppState) : AppState := (h s).1.2.
Definition effectsOf (h : M unit) (s : AppState) : list Effect := (h s).2.
Definition threw (h : M unit) (s : AppState) : bool :=
  match (h s).1.1 with None => true | Some _ => false end.

(** ** The controls and the event loop *)

(** What the user and the network can do to the mounted component. *)
Inductive Event : Type :=
  | ChangeUrl (v : string)
  | ChangeCookie (v : string)
  | ChangeMax (v : Q)
  | Submit
  | ClickPrevious
  | ClickNext
  | ClickExport
  | Settle (o : FetchOutcome).

(** Whether the markup rendered from [s] offers the control: the submit
    button has [disabled={isRunning}]; the export button and the carousel
    are rendered under [profiles.length > 0]; the arrows have
    [disabled={currentProfileIndex === 0}] and
    [disabled={currentProfileIndex === profiles.length - 1}]. The inputs are
    always there. A request settles when the network decides; whether one
    is outstanding is the business of [step].

    Two things a browser does on top of this are left out, so that [step]
    allows more events than a browser would: it checks the [required],
    [min] and [max] attributes of the inputs before it dispatches the submit
    event, and it unmounts the component when rendering throws (a stored
    profile that is [undefined] or [null]). The first is modelled on its
    own, by [submitForm]. *)
Definition offered (s : AppState) (ev : Event) : bool :=
  match ev with
  | ChangeUrl _ | ChangeCookie _ | ChangeMax _ => true
  | Submit => negb (isRunning s)
  | ClickExport => (0 <? length (profiles s))%nat
  | ClickPrevious =>
      (0 <? length (profiles s))%nat && negb (currentProfileIndex s =? 0)
  | ClickNext =>
      (0 <? length (profiles s))%nat
      && negb (currentProfileIndex s =? Z.of_nat (length (profiles s)) - 1)
  | Settle _ => true
  end.

(** The handler the render of [rendered] attaches to each event. *)
Definition handlerOf (rendered : AppState) (ev : Event) : M unit :=
  match ev with
  | ChangeUrl v => setLinkedinUrl v
  | ChangeCookie v => setSessionCookie v
  | ChangeMax v => setMaxProfiles v
  | Submit => handleSubmit rendered
  | ClickPrevious => goToPrevious
  | ClickNext => goToNext rendered
  | ClickExport => exportToExcel rendered
  | Settle o => handleSubmit_resume o
  end.

(** The requests among the effects of a handler. *)
Definition requestsOf (es : list Effect) : list ScrapeRequest :=
  omap (λ e, match e with Fetch _ body => Some body | _ => None end) es.

(** The mounted component together with the requests that were issued and
    have not settled yet. *)
Record World : Type := mkWorld {
  ui : AppState;
  inflight : list ScrapeRequest;
}.

Definition initialWorld : World := mkWorld initialState [].

(** One event: a user event needs its control to be offered, runs the
    handler of the current render on the current state and adds the
    requests it issued; a settle event takes any outstanding request. *)
Inductive step : World → Event → World → Prop :=
  | step_user w ev :
      (∀ o, ev ≠ Settle o) →
      offered (ui w) ev = true →
      step w ev
        (mkWorld (stateAfter (handlerOf (ui w) ev) (ui w))
                 (inflight w ++ requestsOf (effectsOf (handlerOf (ui w) ev) (ui w))))
  | step_settle w o before req after :
      inflight w = before ++ req :: after →
      step w (Settle o)
        (mkWorld (stateAfter (handleSubmit_resume o) (ui w))
                 (before ++ after
                  ++ requestsOf (effectsOf (handleSubmit_resume o) (ui w)))).

Inductive reachable : World → Prop :=
  | reachable_initial : reachable initialWorld
  | reachable_step w ev w' : reachable w → step w ev w' → reachable w'.

(** ** Rendering one experience record *)

(** The records follow the interfaces [Role] and [Experience] of the source:
    a member declared with [?] is an [option]. *)

Module Role.
Record t : Type := mk {
  title : option string;
  dateRange : option string;
  location : option string;
  description : option (list string);
}.
End Role.

Module Experience.
Record t : Type := mk {
  company : string;
  roles : option (list Role.t);
  dateRange : option string;
  description : option (list string);
  location : option string;
  title : option string;
  skills : option string;
}.
End Experience.

(** The DOM a piece of JSX produces: text and elements with their class. *)
Inductive VNode : Type :=
  | Text (s : string)
  | Elem (tag className : string) (children : list VNode).

(** [{v}] for an optional string: [undefined] and the empty string leave no
    node. *)
Definition textChild (v : option string) : list VNode :=
  match v with
  | Some s => if String.eqb s "" then [] else [Text s]
  | None => []
  end.

(** [{v && node}] for an optional string [v]. *)
Definition whenString (v : option string) (node : VNode) : list VNode :=
  match v with
  | Some s => if String.eqb s "" then [] else [node]
  | None => []
  end.

(** [{d && d.length > 0 && (<ul>...</ul>)}] *)
Definition descriptionList (d : option (list string)) : list VNode :=
  match d with
  | Some (desc :: rest) =>
      [Elem "ul" "mt-2 list-disc list-inside text-sm text-gray-600 space-y-1"
         (map (λ desc, Elem "li" "" (textChild (Some desc))) (desc :: rest))]
  | _ => []
  end.

Definition renderRole (role : Role.t) : VNode :=
  Elem "div" "ml-4"
    ([Elem "p" "font-medium text-gray-800" (textChild (Role.title role))]
     ++ whenString (Role.dateRange role)
          (Elem "p" "text-sm text-gray-600" (textChild (Role.dateRange role)))
     ++ whenString (Role.location role)
          (Elem "p" "text-sm text-gray-600" (textChild (Role.location role)))
     ++ descriptionList (Role.description role)).

Definition renderSingleRole (exp : Experience.t) : VNode :=
  Elem "div" ""
    (whenString (Experience.title exp)
       (Elem "p" "font-medium text-gray-800" (textChild (Experience.title exp)))
     ++ whenString (Experience.dateRange exp)
          (Elem "p" "text-sm text-gray-600" (textChild (Experience.dateRange exp)))
     ++ whenString (Experience.location exp)
          (Elem "p" "text-sm text-gray-600" (textChild (Experience.location exp)))
     ++ descriptionList (Experience.description exp)).

(** The callback of [currentProfile.experiences.map]. *)
Definition renderExperience (exp : Experience.t) : VNode :=
  Elem "div" "border-l-2 border-gray-200 pl-4"
    [Elem "div" "space-y-2"
       [Elem "h5" "font-medium text-gray-900"
          (textChild (Some (Experience.company exp)));
        match Experience.roles exp with
        | Some roles => Elem "div" "space-y-4 mt-2" (map renderRole roles)
        | None => renderSingleRole exp
        end]].

(** The text shown by a node, in document order. *)
Fixpoint texts (n : VNode) : list string :=
  match n with
  | Text s => [s]
  | Elem _ _ children => flat_map texts children
  end.

(** ** Outcomes the handler treats as failures *)

(** The outcomes on which [handleSubmit_resume] shows an error toast: a
    rejected promise, a payload whose [error] member is truthy, and a payload
    on which reading [error] throws ([null]). *)
Definition failedOutcome (o : FetchOutcome) : bool :=
  match o with
  | FetchRejected | JsonRejected => true
  | JsonResolved data =>
      match prop data "error" with
      | Some error => truthy error
      | None => true
      end
  end.

(** ** The export as the specification words it *)

Definition exportColumns : list string :=
  ["name"; "profile_url"; "title"; "location"].

(** A member as the [Profile] interface declares the four exported ones:
    a string or missing ([null] counts as missing). *)
Definition optionalString (v : JsVal) : bool :=
  match v with
  | JUndefined | JNull | JStr _ => true
  | _ => false
  end.

(** A profile: an object whose four exported members are optional strings.
    Nothing is asked of its other members. *)
Definition isProfile (v : JsVal) : bool :=
  match v with
  | JObj fields =>
      forallb (λ k, optionalString (default JUndefined (fields !! k))) exportColumns
  | _ => false
  end.

(** The text of a member, the empty string when it is missing. *)
Definition fieldText (profile : JsVal) (k : string) : string :=
  match prop profile k with
  | Some (JStr text) => text
  | _ => ""
  end.

(** The row of a profile: the four columns, each holding the member's text. *)
Definition specRow (profile : JsVal) : Row :=
  map (λ k, (k, JStr (fieldText profile k))) exportColumns.

(** ** The text of an experience as the specification words it *)

(** An optional string is shown when it is present and not empty. *)
Definition shown (v : option string) : list string :=
  match v with
  | Some text => if String.eqb text "" then [] else [text]
  | None => []
  end.

(** The lines of an optional description, one after the other. *)
Definition shownLines (d : option (list string)) : list string :=
  match d with
  | Some lines => flat_map (λ line, shown (Some line)) lines
  | None => []
  end.

(** The fields of one role: title, date range, location, description. *)
Definition roleTexts (role : Role.t) : list string :=
  shown (Role.title role) ++ shown (Role.dateRange role)
  ++ shown (Role.location role) ++ shownLines (Role.description role).

(** The flat fields of an experience record, in the same order. *)
Definition flatTexts (exp : Experience.t) : list string :=
  shown (Experience.title exp) ++ shown (Experience.dateRange exp)
  ++ shown (Experience.location exp) ++ shownLines (Experience.description exp).

(** ** Invariants *)

(** The carousel index is a position of the stored list, or 0 when the list
    is empty. *)
Definition indexInRange (s : AppState) : Prop :=
  0 ≤ currentProfileIndex s
  ∧ (profiles s ≠ [] →
     currentProfileIndex s ≤ Z.of_nat (length (profiles s)) - 1).

(** At most one request is outstanding, and the flag is up while it is. *)
Definition singleFlight (w : World) : Prop :=
  (length (inflight w) ≤ 1)%nat
  ∧ (inflight w ≠ [] → isRunning (ui w) = true).

(** ** Sample data *)

(** Three profiles as the scraping service returns them, a stored state with
    the carousel on the second of two profiles, and a filled-in form. *)
Definition ada : JsVal :=
  JObj {[ "name" := JStr "Ada"; "title" := JStr "Engineer";
          "profile_url" := JStr "https://www.linkedin.com/in/ada";
          "location" := JStr "London";
          "experiences" := JArr [JObj {[ "company" := JStr "Analytical" ]}] ]}.

Definition bob : JsVal :=
  JObj {[ "name" := JStr "Bob"; "location" := JStr "" ]}.

Definition carol : JsVal :=
  JObj {[ "name" := JStr "Carol"; "title" := JStr "Designer" ]}.

Definition browsing : AppState :=
  mkState "https://www.linkedin.com/search/results/people/" "li_at" 2%Q false
          [ada; bob] 1.

Definition waiting : AppState :=
  mkState "https://www.linkedin.com/search/results/people/" "li_at" 2%Q true
          [ada; bob] 1.

(** A tenure with two roles whose record also carries flat fields, and a
    record with one flat role. *)
Definition tenure : Experience.t :=
  Experience.mk "Analytical"
    (Some [Role.mk (Some "Engineer") (Some "2019 - 2021") None (Some ["Built engines"]);
           Role.mk (Some "Lead") None (Some "London") None])
    (Some "1815 - 1852") (Some ["Flat line"]) (Some "Flatland") (Some "Flat title")
    None.

Definition job : Experience.t :=
  Experience.mk "Difference" None
    (Some "2021 - 2024") (Some ["Wrote notes"; ""]) None (Some "Analyst") None.

(** The form filled in and submitted, the request not yet settled. *)
Definition typedUrl : string := "https://www.linkedin.com/search/results/people/".

Definition submittedWorld : World :=
  mkWorld (mkState typedUrl "li_at" 1%Q true [] 0)
          [mkRequest typedUrl "li_at" 1%Q].

(** ** The rest of the render *)

(** [const currentProfile = profiles[currentProfileIndex]]: an index that is
    not a position of the array reads [undefined]. *)
Definition currentProfile (s : AppState) : JsVal :=
  if 0 <=? currentProfileIndex s
  then default JUndefined (profiles s !! Z.to_nat (currentProfileIndex s))
  else JUndefined.

(** [profiles.length > 0], the guard of the export button and of the
    carousel. *)
Definition carouselShown (s : AppState) : bool :=
  (0 <? length (profiles s))%nat.

(** [currentProfile.name], the first member the carousel reads of the
    current profile; [None] when the read throws, which aborts the render. *)
Definition headerName (s : AppState) : option JsVal :=
  prop (currentProfile s) "name".

(** The two numbers of [{currentProfileIndex + 1} of {profiles.length}]. *)
Definition positionIndicator (s : AppState) : Z * Z :=
  (currentProfileIndex s + 1, Z.of_nat (length (profiles s))).

(** [{isRunning ? "Processing..." : "Start Export"}] *)
Definition submitLabel (s : AppState) : string :=
  if isRunning s then "Processing..." else "Start Export".

(** One click on an arrow: the handler of the current render run on the
    current state. *)
Definition clickPrevious (s : AppState) : AppState := stateAfter goToPrevious s.
Definition clickNext (s : AppState) : AppState := stateAfter (goToNext s) s.

(** [undefined] and [null], the values a member cannot be read of. *)
Definition nullish (v : JsVal) : bool :=
  match v with
  | JUndefined | JNull => true
  | _ => false
  end.

Definition isToast (e : Effect) : bool :=
  match e with
  | ToastError _ | ToastSuccess _ => true
  | _ => false
  end.

Module Education.
Record t : Type := mk {
  institution : string;
  degree : string;
  date : string;
  details : list string;
}.
End Education.

Module Evaluation.
Record scored : Type := mkScored {
  score : Q;
  explanation : string;
}.
Record t : Type := mk {
  personal_information : scored;
  education : scored;
  work_experience : scored;
  overall_score : Q;
  actionable_insights : list string;
}.
End Evaluation.

Module Profile.
Record t : Type := mk {
  name : option string;
  location : option string;
  profile_url : option string;
  title : option string;
  experiences : option (list Experience.t);
  education : option (list Education.t);
  evaluation : option Evaluation.t;
}.
End Profile.

(** The callback of [currentProfile.education.map]. *)
Definition renderEducation (edu : Education.t) : VNode :=
  Elem "div" "border-l-2 border-gray-200 pl-4"
    ([Elem "h5" "font-medium text-gray-900"
        (textChild (Some (Education.institution edu)));
      Elem "p" "text-gray-800" (textChild (Some (Education.degree edu)))]
     ++ whenString (Some (Education.date edu))
          (Elem "p" "text-sm text-gray-600" (textChild (Some (Education.date edu))))
     ++ descriptionList (Some (Education.details edu))).

(** [{currentProfile.experiences && currentProfile.experiences.length > 0
    && (...)}] *)
Definition experienceSection (profile : Profile.t) : list VNode :=
  match Profile.experiences profile with
  | Some (exp :: rest) =>
      [Elem "div" ""
         [Elem "h4" "text-lg font-semibold text-gray-900 mb-4" [Text "Experience"];
          Elem "div" "space-y-6" (map renderExperience (exp :: rest))]]
  | _ => []
  end.

(** [{currentProfile.education && currentProfile.education.length > 0
    && (...)}] *)
Definition educationSection (profile : Profile.t) : list VNode :=
  match Profile.education profile with
  | Some (edu :: rest) =>
      [Elem "div" ""
         [Elem "h4" "text-lg font-semibold text-gray-900 mb-4" [Text "Education"];
          Elem "div" "space-y-4" (map renderEducation (edu :: rest))]]
  | _ => []
  end.

(** The text of an education record as the interface names it. *)
Definition educationTexts (edu : Education.t) : list string :=
  shown (Some (Education.institution edu)) ++ shown (Some (Education.degree edu))
  ++ shown (Some (Education.date edu)) ++ shownLines (Some (Education.details edu)).

(** More sample data: a profile with one experience and two schools, and a
    carousel of three on its first profile. *)
Definition school : Education.t :=
  Education.mk "Trinity" "BA Mathematics" "1832" ["Tutored by De Morgan"].

Definition academy : Education.t := Education.mk "Academy" "Diploma" "" [].

Definition adaProfile : Profile.t :=
  Profile.mk (Some "Ada") (Some "London") None (Some "Engineer")
             (Some [job]) (Some [school; academy]) None.

Definition threeProfiles : AppState :=
  mkState typedUrl "li_at" 3%Q false [ada; bob; carol] 0.

(** The submitted form after the response [{profile: [ada, bob]}]. *)
Definition loadedWorld : World :=
  mkWorld (mkState typedUrl "li_at" 1%Q false [ada; bob] 0) [].

(** ** The notice of a failed submission *)

(** The text of the notice a failed outcome is reported with: the fixed text
    of the [catch] block when a promise rejects, the payload's own error
    string when that is a non-empty string. [None] for every other
    outcome. *)
Definition failureNotice (o : FetchOutcome) : option string :=
  match o with
  | FetchRejected | JsonRejected => Some "Failed to scrape profiles"
  | JsonResolved data =>
      match prop data "error" with
      | Some (JStr msg) => if String.eqb msg "" then None else Some msg
      | _ => None
      end
  end.

(** ** The form and its constraints *)

(** The inputs sit in [<form onSubmit={handleSubmit}>], which has no
    [noValidate]: when the form is submitted the browser first checks the
    constraints the markup puts on the controls, in document order, and
    only when all hold does it dispatch the submit event that runs
    [handleSubmit]; otherwise it reports the first control that fails and
    dispatches nothing. The controls are controlled inputs: each shows the
    state cell it is bound to. *)
Inductive FormControl : Type :=
  | UrlControl
  | CookieControl
  | CountControl.

(** A rational is a whole number when its denominator divides its
    numerator. *)
Definition isInteger (q : Q) : bool :=
  (Qnum q mod Z.pos (Qden q) =? 0)%Z.

(** [<input type="number" min="1" max="5">] with the default step of 1,
    counted from the minimum: no underflow, no overflow, no step
    mismatch. *)
Definition countValid (v : Q) : bool :=
  Qle_bool 1 v && Qle_bool v 5 && isInteger (v - 1).

(** The count as the specification words it: an integer from 1 to 5. *)
Definition integerFrom1To5 (v : Q) : Prop :=
  ∃ n : Z, 1 ≤ n ≤ 5 ∧ (v == inject_Z n)%Q.

Section Form.

(** Whether a non-empty string is a URL in the eyes of the browser
    ([type="url"]); the browser's parser is no part of the repository. *)
Variable validUrl : string → bool.

(** [<input type="url" required>], [<textarea required>] and the count
    input, in document order. *)
Definition firstInvalid (s : AppState) : option FormControl :=
  if String.eqb (linkedinUrl s) "" || negb (validUrl (linkedinUrl s))
  then Some UrlControl
  else if String.eqb (sessionCookie s) "" then Some CookieControl
  else if negb (countValid (maxProfiles s)) then Some CountControl
  else None.

(** What a submission of the form comes to: the browser's notice on a
    control and nothing else, or the submit event with what [handleSubmit]
    makes of it. *)
Inductive Submission : Type :=
  | ValidationNotice (control : FormControl)
  | SubmitEvent (run : option unit * AppState * list Effect).

Definition submitForm (s : AppState) : Submission :=
  match firstInvalid s with
  | Some control => ValidationNotice control
  | None => SubmitEvent (handleSubmit s s)
  end.

End Form.

Definition submissionRequests (r : Submission) : list ScrapeRequest :=
  match r with
  | ValidationNotice _ => []
  | SubmitEvent run => requestsOf run.2
  end.

Definition submissionState (before : AppState) (r : Submission) : AppState :=
  match r with
  | ValidationNotice _ => before
  | SubmitEvent run => run.1.2
  end.

(** A URL test for the examples: anything that starts with https. *)
Definition startsWithHttps (v : string) : bool :=
  String.eqb (String.substring 0 5 v) "https".

(** * Properties *)

(** ** What each handler computes *)

Ltac unfold_handler :=
  unfold stateAfter, effectsOf, threw, handleSubmit, handleSubmit_resume,
    goToPrevious, goToNext, exportToExcel, try_finally, try_catch, awaited,
    setLinkedinUrl, setSessionCookie, setMaxProfiles, setIsRunning,
    setProfiles, setCurrentProfileIndex, toast_error, toast_success,
    lift, bind, update, emit, throw, ret in *.

(** Membership in an explicit list of effects. *)
Ltac in_list :=
  repeat first [apply list_elem_of_here | apply list_elem_of_further].

Lemma string_eqb_empty (v : string) : String.eqb v "" = false ↔ v ≠ "".
Proof.
  destruct (String.eqb_spec v ""); split; congruence.
Qed.

Lemma handleSubmit_blocked (s : AppState) :
  linkedinUrl s = "" ∨ sessionCookie s = "" →
  handleSubmit s s
  = (Some tt, s, [ToastError (JStr "Please fill in all required fields")]).
Proof.
  intros Hempty. unfold_handler.
  destruct Hempty as [-> | ->]; [done |].
  by rewrite orb_true_r.
Qed.

Lemma handleSubmit_sends (s : AppState) :
  linkedinUrl s ≠ "" → sessionCookie s ≠ "" →
  handleSubmit s s
  = (Some tt,
     mkState (linkedinUrl s) (sessionCookie s) (maxProfiles s) true
             (profiles s) (currentProfileIndex s),
     [Fetch endpoint (mkRequest (linkedinUrl s) (sessionCookie s) (maxProfiles s))]).
Proof.
  intros Hurl Hcookie. unfold_handler.
  apply string_eqb_empty in Hurl, Hcookie. by rewrite Hurl, Hcookie.
Qed.

Lemma resume_success (s : AppState) (data error profile : JsVal) :
  prop data "error" = Some error → truthy error = false →
  prop data "profile" = Some profile →
  handleSubmit_resume (JsonResolved data) s
  = (Some tt,
     mkState (linkedinUrl s) (sessionCookie s) (maxProfiles s) false
             (profileList profile) 0,
     [ConsoleLog data; ToastSuccess (JStr "Profiles scraped successfully!")]).
Proof.
  intros Herr Hfalsy Hprofile. unfold_handler. simpl.
  rewrite Herr. simpl. rewrite Hfalsy. rewrite Hprofile. reflexivity.
Qed.

Lemma resume_error_field (s : AppState) (data error : JsVal) :
  prop data "error" = Some error → truthy error = true →
  handleSubmit_resume (JsonResolved data) s
  = (Some tt,
     mkState (linkedinUrl s) (sessionCookie s) (maxProfiles s) false
             (profiles s) (currentProfileIndex s),
     [ConsoleLog data; ToastError error]).
Proof.
  intros Herr Htruthy. unfold_handler. simpl.
  rewrite Herr. simpl. rewrite Htruthy. reflexivity.
Qed.

Lemma resume_type_error (s : AppState) (data : JsVal) :
  prop data "error" = None →
  handleSubmit_resume (JsonResolved data) s
  = (Some tt,
     mkState (linkedinUrl s) (sessionCookie s) (maxProfiles s) false
             (profiles s) (currentProfileIndex s),
     [ConsoleLog data; ToastError (JStr "Failed to scrape profiles"); ConsoleError]).
Proof.
  intros Herr. unfold_handler. simpl. rewrite Herr. reflexivity.
Qed.

Lemma resume_rejected (s : AppState) (o : FetchOutcome) :
  o = FetchRejected ∨ o = JsonRejected →
  handleSubmit_resume o s
  = (Some tt,
     mkState (linkedinUrl s) (sessionCookie s) (maxProfiles s) false
             (profiles s) (currentProfileIndex s),
     [ToastError (JStr "Failed to scrape profiles"); ConsoleError]).
Proof. by intros [-> | ->]. Qed.

(** A property read that succeeds once succeeds for every key. *)
Lemma prop_total (data : JsVal) (k k' : string) :
  is_Some (prop data k) → is_Some (prop data k').
Proof. destruct data; simpl; intros [? ?]; eauto; discriminate. Qed.

(** ** Navigation *)

Lemma goToPrevious_result (s : AppState) :
  goToPrevious s
  = (Some tt,
     mkState (linkedinUrl s) (sessionCookie s) (maxProfiles s) (isRunning s)
             (profiles s)
             (if 0 <? currentProfileIndex s
              then currentProfileIndex s - 1 else currentProfileIndex s),
     []).
Proof. unfold_handler. by rewrite Z.gtb_ltb. Qed.

Lemma goToNext_result (rendered s : AppState) :
  goToNext rendered s
  = (Some tt,
     mkState (linkedinUrl s) (sessionCookie s) (maxProfiles s) (isRunning s)
             (profiles s)
             (if currentProfileIndex s <? Z.of_nat (length (profiles rendered)) - 1
              then currentProfileIndex s + 1 else currentProfileIndex s),
     []).
Proof. reflexivity. Qed.

(** C1. With N >= 1 profiles and the index i in [0, N-1]: [goToPrevious]
    leaves the state as it is when i = 0 and otherwise makes the index
    i - 1; [goToNext] leaves the state as it is when i = N - 1 and
    otherwise makes the index i + 1; the new index is in [0, N-1] both
    times, so neither wraps around. *)
Theorem navigation_one_step_clamped (s : AppState) :
  1 ≤ Z.of_nat (length (profiles s)) →
  0 ≤ currentProfileIndex s ≤ Z.of_nat (length (profiles s)) - 1 →
  (currentProfileIndex s = 0 → stateAfter goToPrevious s = s)
  ∧ (currentProfileIndex s ≠ 0 →
     currentProfileIndex (stateAfter goToPrevious s) = currentProfileIndex s - 1)
  ∧ (currentProfileIndex s = Z.of_nat (length (profiles s)) - 1 →
     stateAfter (goToNext s) s = s)
  ∧ (currentProfileIndex s ≠ Z.of_nat (length (profiles s)) - 1 →
     currentProfileIndex (stateAfter (goToNext s) s) = currentProfileIndex s + 1)
  ∧ 0 ≤ currentProfileIndex (stateAfter goToPrevious s)
      ≤ Z.of_nat (length (profiles s)) - 1
  ∧ 0 ≤ currentProfileIndex (stateAfter (goToNext s) s)
      ≤ Z.of_nat (length (profiles s)) - 1.
Proof.
  intros HN Hi. unfold stateAfter.
  rewrite goToPrevious_result, goToNext_result. simpl.
  destruct s as [u c m r ps i]; simpl in *.
  destruct (Z.ltb_spec 0 i), (Z.ltb_spec i (Z.of_nat (length ps) - 1));
    repeat split; intros; try lia; f_equal; lia.
Qed.

Lemma navigation_one_step_clamped_witness :
  currentProfileIndex
    (stateAfter goToPrevious (mkState "u" "c" 1%Q false [JNull; JNull; JNull] 1))
  = 0
  ∧ currentProfileIndex
      (stateAfter (goToNext (mkState "u" "c" 1%Q false [JNull; JNull; JNull] 1))
                  (mkState "u" "c" 1%Q false [JNull; JNull; JNull] 1))
    = 2.
Proof.
  pose proof (navigation_one_step_clamped
                (mkState "u" "c" 1%Q false [JNull; JNull; JNull] 1)) as H.
  simpl in H.
  destruct H as (_ & Hprev & _ & Hnext & _); [lia | lia |].
  split; [apply Hprev | apply Hnext]; lia.
Defined.

(** ** Submission: the response *)

(** C2. When the response has no error field: a single object under
    [profile] becomes the one-element list holding it, an array becomes the
    stored list entry for entry, and in both cases the index is 0; the list
    stored before plays no part in the result. *)
Theorem success_replaces_profile_list
    (s : AppState) (fields : gmap string JsVal) (profile : JsVal) :
  fields !! "error" = None →
  fields !! "profile" = Some profile →
  (∀ members, profile = JObj members →
     profiles (stateAfter (handleSubmit_resume (JsonResolved (JObj fields))) s)
     = [profile])
  ∧ (∀ entries, profile = JArr entries →
     profiles (stateAfter (handleSubmit_resume (JsonResolved (JObj fields))) s)
     = entries
     ∧ length (profiles (stateAfter (handleSubmit_resume (JsonResolved (JObj fields))) s))
       = length entries)
  ∧ currentProfileIndex
      (stateAfter (handleSubmit_resume (JsonResolved (JObj fields))) s) = 0.
Proof.
  intros Herror Hprofile. unfold stateAfter.
  rewrite (resume_success s (JObj fields) JUndefined profile);
    [| by simpl; rewrite Herror | done | by simpl; rewrite Hprofile].
  simpl. repeat split; intros; by subst.
Qed.

Lemma success_replaces_profile_list_witness :
  profiles (stateAfter
              (handleSubmit_resume
                 (JsonResolved (JObj {[ "profile" := JArr [carol; ada; bob] ]})))
              waiting)
  = [carol; ada; bob]
  ∧ currentProfileIndex
      (stateAfter
         (handleSubmit_resume
            (JsonResolved (JObj {[ "profile" := JArr [carol; ada; bob] ]})))
         waiting)
    = 0.
Proof.
  destruct (success_replaces_profile_list waiting
              {[ "profile" := JArr [carol; ada; bob] ]} (JArr [carol; ada; bob]))
    as (_ & Harray & Hindex); [reflexivity | reflexivity |].
  split; [apply (Harray [carol; ada; bob]); reflexivity | exact Hindex].
Defined.

(** C4, as stated, fails: a payload that carries an error field whose value
    is the empty string is handled as a success. With two profiles stored and
    the carousel on the second, the response [{error: ""}] replaces the list
    by [[undefined]], resets the index and shows the success toast. *)
Lemma empty_error_field_handled_as_success :
  is_Some (({[ "error" := JStr "" ]} : gmap string JsVal) !! "error")
  ∧ profiles (stateAfter
                (handleSubmit_resume (JsonResolved (JObj {[ "error" := JStr "" ]})))
                waiting)
    = [JUndefined]
  ∧ profiles (stateAfter
                (handleSubmit_resume (JsonResolved (JObj {[ "error" := JStr "" ]})))
                waiting)
    ≠ profiles waiting
  ∧ currentProfileIndex
      (stateAfter
         (handleSubmit_resume (JsonResolved (JObj {[ "error" := JStr "" ]})))
         waiting)
    ≠ currentProfileIndex waiting
  ∧ effectsOf (handleSubmit_resume (JsonResolved (JObj {[ "error" := JStr "" ]})))
              waiting
    = [ConsoleLog (JObj {[ "error" := JStr "" ]});
       ToastSuccess (JStr "Profiles scraped successfully!")].
Proof.
  split; [by eexists |].
  repeat split; try reflexivity; discriminate.
Qed.

(** C4, amended. When the submission fails -- the payload carries an error
    field that is a non-empty string, or the fetch or the reading of the
    body rejects -- one toast is shown and it is an error toast, with the
    payload's error string resp. the fixed text of the [catch] block as its
    message; the stored list and the index are what they were, and of the
    state only [isRunning] changes, to false. *)
Theorem failure_keeps_results (s : AppState) (o : FetchOutcome) (text : string) :
  failureNotice o = Some text →
  profiles (stateAfter (handleSubmit_resume o) s) = profiles s
  ∧ currentProfileIndex (stateAfter (handleSubmit_resume o) s)
    = currentProfileIndex s
  ∧ stateAfter (handleSubmit_resume o) s
    = mkState (linkedinUrl s) (sessionCookie s) (maxProfiles s) false
              (profiles s) (currentProfileIndex s)
  ∧ filter (λ e, isToast e = true) (effectsOf (handleSubmit_resume o) s)
    = [ToastError (JStr text)]
  ∧ (∀ data msg,
       o = JsonResolved data → prop data "error" = Some (JStr msg) → text = msg)
  ∧ (o = FetchRejected ∨ o = JsonRejected → text = "Failed to scrape profiles").
Proof.
  intros Hnotice. unfold stateAfter, effectsOf.
  destruct o as [| | data]; simpl in Hnotice.
  - injection Hnotice as <-.
    rewrite (resume_rejected s FetchRejected) by auto.
    repeat split; done.
  - injection Hnotice as <-.
    rewrite (resume_rejected s JsonRejected) by auto.
    repeat split; done.
  - destruct (prop data "error") as [[| | | | msg | |] |] eqn:Herror;
      try discriminate.
    destruct (String.eqb msg "") eqn:Hmsg; [discriminate |].
    injection Hnotice as <-.
    rewrite (resume_error_field s data (JStr msg)) by (by simpl; rewrite ?Hmsg).
    repeat split; try done.
    + intros data' msg' [= <-] Herror'. congruence.
    + by intros [? | ?].
Qed.

Lemma failure_keeps_results_witness :
  profiles (stateAfter
              (handleSubmit_resume
                 (JsonResolved (JObj {[ "error" := JStr "Session expired" ]})))
              waiting)
  = [ada; bob]
  ∧ currentProfileIndex
      (stateAfter
         (handleSubmit_resume
            (JsonResolved (JObj {[ "error" := JStr "Session expired" ]})))
         waiting)
    = 1
  ∧ filter (λ e, isToast e = true)
      (effectsOf
         (handleSubmit_resume
            (JsonResolved (JObj {[ "error" := JStr "Session expired" ]})))
         waiting)
    = [ToastError (JStr "Session expired")].
Proof.
  destruct (failure_keeps_results waiting
              (JsonResolved (JObj {[ "error" := JStr "Session expired" ]}))
              "Session expired")
    as (Hlist & Hindex & _ & Htoast & _); [reflexivity |].
  split; [exact Hlist |]. split; [exact Hindex | exact Htoast].
Defined.

(** ** Submission: local validation *)

(** C5. With the URL or the cookie empty, [handleSubmit] shows the
    validation toast and does nothing else: it issues no request and leaves
    every state cell, the stored list and the index among them, as it was;
    the submit event leaves the set of outstanding requests as it was. *)
Theorem empty_field_blocks_submission (s : AppState) :
  linkedinUrl s = "" ∨ sessionCookie s = "" →
  effectsOf (handleSubmit s) s
  = [ToastError (JStr "Please fill in all required fields")]
  ∧ requestsOf (effectsOf (handleSubmit s) s) = []
  ∧ stateAfter (handleSubmit s) s = s
  ∧ profiles (stateAfter (handleSubmit s) s) = profiles s
  ∧ currentProfileIndex (stateAfter (handleSubmit s) s) = currentProfileIndex s
  ∧ (∀ pending w', step (mkWorld s pending) Submit w' → w' = mkWorld s pending).
Proof.
  intros Hempty. unfold stateAfter, effectsOf.
  rewrite (handleSubmit_blocked s Hempty). simpl.
  repeat split.
  intros pending w' Hstep. inversion Hstep as [w ev Huser Hoffered |]; subst.
  simpl. unfold stateAfter, effectsOf.
  rewrite (handleSubmit_blocked s Hempty). simpl.
  by rewrite app_nil_r.
Qed.

Lemma empty_field_blocks_submission_witness :
  effectsOf (handleSubmit (mkState "https://www.linkedin.com/search/" "" 1%Q false [ada] 0))
            (mkState "https://www.linkedin.com/search/" "" 1%Q false [ada] 0)
  = [ToastError (JStr "Please fill in all required fields")].
Proof.
  destruct (empty_field_blocks_submission
              (mkState "https://www.linkedin.com/search/" "" 1%Q false [ada] 0))
    as (Heffects & _); [right; reflexivity | exact Heffects].
Defined.

(** What [handleSubmit] does with the count, whatever it is: the request is
    sent with it as the limit. *)
Lemma count_is_forwarded (s : AppState) :
  linkedinUrl s ≠ "" → sessionCookie s ≠ "" →
  effectsOf (handleSubmit s) s
  = [Fetch endpoint (mkRequest (linkedinUrl s) (sessionCookie s) (maxProfiles s))].
Proof.
  intros Hurl Hcookie. unfold effectsOf.
  by rewrite (handleSubmit_sends s Hurl Hcookie).
Qed.

(** ** Submission: the constraints of the form *)

Lemma countValid_iff (v : Q) : countValid v = true ↔ integerFrom1To5 v.
Proof.
  destruct v as [a b]. unfold countValid, isInteger, integerFrom1To5.
  rewrite !andb_true_iff, !Qle_bool_iff, Z.eqb_eq.
  unfold Qle, Qeq, Qminus, Qplus, Qopp. cbn [Qnum Qden inject_Z].
  rewrite !Pos.mul_1_r, !Z.mul_1_r, !Z.mul_1_l.
  change (- (1) * Z.pos b) with (- Z.pos b).
  split.
  - intros [[Hlow Hhigh] Hstep].
    apply Z.mod_divide in Hstep as [k Hk]; [| done].
    exists (k + 1). split; [nia | lia].
  - intros (n & Hrange & Hn). subst a.
    split; [split; nia |].
    replace (n * Z.pos b + - Z.pos b) with ((n - 1) * Z.pos b) by lia.
    by apply Z.mod_mul.
Qed.

(** The submit event is dispatched only on a form whose three controls
    pass. *)
Lemma firstInvalid_None (validUrl : string → bool) (s : AppState) :
  firstInvalid validUrl s = None →
  linkedinUrl s ≠ "" ∧ sessionCookie s ≠ "" ∧ countValid (maxProfiles s) = true.
Proof.
  unfold firstInvalid.
  destruct (String.eqb_spec (linkedinUrl s) ""); [done |].
  destruct (validUrl (linkedinUrl s)); [| done].
  destruct (String.eqb_spec (sessionCookie s) ""); [done |].
  by destruct (countValid (maxProfiles s)).
Qed.

(** C6. When the count is not an integer from 1 to 5, a submission of the
    form is blocked locally: the browser reports one of the controls -- the
    count control when the URL and the cookie pass -- and dispatches no
    submit event, so no request is sent and the state is what it was. Read
    the other way: a request sent through the form always carries an
    integer from 1 to 5 as its limit. *)
Theorem count_out_of_range_blocks_submission
    (validUrl : string → bool) (s : AppState) :
  (¬ integerFrom1To5 (maxProfiles s) →
   (∃ control, submitForm validUrl s = ValidationNotice control)
   ∧ submissionRequests (submitForm validUrl s) = []
   ∧ submissionState s (submitForm validUrl s) = s
   ∧ (linkedinUrl s ≠ "" → validUrl (linkedinUrl s) = true →
      sessionCookie s ≠ "" →
      submitForm validUrl s = ValidationNotice CountControl))
  ∧ (∀ request,
       request ∈ submissionRequests (submitForm validUrl s) →
       integerFrom1To5 (limit request)).
Proof.
  split.
  - intros Hcount.
    assert (countValid (maxProfiles s) = false) as Hinvalid.
    { destruct (countValid (maxProfiles s)) eqn:Hvalid; [| done].
      by apply countValid_iff in Hvalid. }
    unfold submitForm.
    destruct (firstInvalid validUrl s) as [control |] eqn:Hfirst.
    + repeat split; [by exists control |].
      intros Hurl Hvalid Hcookie. unfold firstInvalid in Hfirst.
      apply string_eqb_empty in Hurl, Hcookie.
      rewrite Hurl, Hvalid, Hcookie, Hinvalid in Hfirst. simpl in Hfirst.
      congruence.
    + apply firstInvalid_None in Hfirst as (_ & _ & Hvalid). congruence.
  - intros request Hin. unfold submitForm in Hin.
    destruct (firstInvalid validUrl s) as [control |] eqn:Hfirst;
      [by apply elem_of_nil in Hin |].
    apply firstInvalid_None in Hfirst as (Hurl & Hcookie & Hvalid).
    simpl in Hin. rewrite (handleSubmit_sends s Hurl Hcookie) in Hin.
    apply list_elem_of_singleton in Hin as ->.
    by apply countValid_iff.
Qed.

Lemma count_out_of_range_blocks_submission_witness :
  submitForm startsWithHttps
    (mkState "https://www.linkedin.com/search/" "li_at" 6%Q false [] 0)
  = ValidationNotice CountControl
  ∧ submissionRequests
      (submitForm startsWithHttps
         (mkState "https://www.linkedin.com/search/" "li_at" 6%Q false [] 0))
    = [].
Proof.
  destruct (count_out_of_range_blocks_submission startsWithHttps
              (mkState "https://www.linkedin.com/search/" "li_at" 6%Q false [] 0))
    as (Hblocked & _).
  destruct Hblocked as (_ & Hnone & _ & Hcount).
  { intros (n & Hrange & Hn). unfold Qeq in Hn. simpl in Hn. lia. }
  split; [apply Hcount; done | exact Hnone].
Defined.

(** ** Export *)

Lemma or_empty_string (v : JsVal) :
  optionalString v = true →
  Js.or v (JStr "") = JStr (match v with JStr text => text | _ => "" end).
Proof.
  destruct v as [| | | | text | |]; try done.
  intros _. unfold Js.or. simpl.
  by destruct (String.eqb_spec text "") as [-> |].
Qed.

(** On a profile the callback does not throw and computes the row of the
    specification. *)
Lemma exportRow_specRow (profile : JsVal) :
  isProfile profile = true → exportRow profile = Some (specRow profile).
Proof.
  destruct profile as [| | | | | | fields]; try done.
  unfold isProfile, exportColumns, forallb.
  rewrite !andb_true_iff. intros (Hname & Hurl & Htitle & Hlocation & _).
  unfold exportRow, specRow, exportColumns, fieldText, prop, map.
  cbn [mbind option_bind].
  rewrite !or_empty_string by done.
  repeat f_equal;
    match goal with
    | |- context [default JUndefined ?o] => by destruct o as [[]|]
    end.
Qed.

Lemma mapM_exportRow (stored : list JsVal) :
  Forall (λ profile, isProfile profile = true) stored →
  mapM exportRow stored = Some (map specRow stored).
Proof.
  induction 1 as [| profile rest Hprofile _ IH]; [done |].
  cbn [mapM map]. rewrite (exportRow_specRow _ Hprofile). simpl.
  by rewrite IH.
Qed.

(** Members other than the four columns do not reach the row. *)
Lemma exportRow_ignores_member (fields : gmap string JsVal) (k : string) (v : JsVal) :
  k ∉ exportColumns →
  exportRow (JObj (<[k := v]> fields)) = exportRow (JObj fields).
Proof.
  intros Hk. unfold exportRow, prop.
  rewrite !lookup_insert_ne; [done | ..];
    intros ->; apply Hk; unfold exportColumns; in_list.
Qed.

(** C3. With no profile stored, [exportToExcel] shows a toast and writes no
    file. With profiles stored it writes one workbook, named profiles.xlsx,
    whose only sheet is named Profiles and is built from one row per
    profile, in the order of the list; a row has the columns name,
    profile_url, title and location, in this order, each holding the text of
    the member or the empty string when the member is missing; a member
    outside these four, such as experiences, education or evaluation, has no
    influence on the row. The state is the same afterwards. *)
Theorem export_one_row_per_profile (s : AppState) :
  (profiles s = [] →
     exportToExcel s s = (Some tt, s, [ToastError (JStr "No profiles to export")]))
  ∧ (profiles s ≠ [] →
     Forall (λ profile, isProfile profile = true) (profiles s) →
     exportToExcel s s
     = (Some tt, s,
        [WriteFile [("Profiles", mkSheet (map specRow (profiles s)))] "profiles.xlsx"])
     ∧ length (map specRow (profiles s)) = length (profiles s)
     ∧ (∀ i profile,
          profiles s !! i = Some profile →
          map specRow (profiles s) !! i
          = Some [("name", JStr (fieldText profile "name"));
                  ("profile_url", JStr (fieldText profile "profile_url"));
                  ("title", JStr (fieldText profile "title"));
                  ("location", JStr (fieldText profile "location"))])
     ∧ (∀ profile k,
          profile ∈ profiles s → prop profile k = Some JUndefined →
          fieldText profile k = ""))
  ∧ (∀ fields k v,
       k ∉ exportColumns →
       exportRow (JObj (<[k := v]> fields)) = exportRow (JObj fields)).
Proof.
  split; [| split].
  - intros Hnone. unfold exportToExcel. by rewrite Hnone.
  - intros Hsome Hprofiles. repeat split.
    + unfold exportToExcel.
      destruct (profiles s) as [| first rest] eqn:Hstored; [done |].
      cbn [length Nat.eqb]. unfold bind.
      rewrite (mapM_exportRow _ Hprofiles). reflexivity.
    + apply length_map.
    + intros i profile Hi. rewrite list_lookup_fmap, Hi. reflexivity.
    + intros profile k _ Hmissing. unfold fieldText. by rewrite Hmissing.
  - apply exportRow_ignores_member.
Qed.

Lemma export_one_row_per_profile_witness :
  exportToExcel browsing browsing
  = (Some tt, browsing,
     [WriteFile
        [("Profiles",
          mkSheet
            [[("name", JStr "Ada");
              ("profile_url", JStr "https://www.linkedin.com/in/ada");
              ("title", JStr "Engineer"); ("location", JStr "London")];
             [("name", JStr "Bob"); ("profile_url", JStr "");
              ("title", JStr ""); ("location", JStr "")]])]
        "profiles.xlsx"]).
Proof.
  destruct (export_one_row_per_profile browsing) as (_ & Hexport & _).
  destruct Hexport as (Hrun & _);
    [discriminate | repeat constructor | rewrite Hrun; reflexivity].
Defined.

(** ** Rendering an experience *)

Lemma texts_whenString (v : option string) (tag className : string) :
  flat_map texts (whenString v (Elem tag className (textChild v))) = shown v.
Proof.
  destruct v as [text |]; [| done]. simpl.
  by destruct (String.eqb text "").
Qed.

Lemma texts_textChild (v : option string) :
  flat_map texts (textChild v) = shown v.
Proof.
  destruct v as [text |]; [| done]. simpl.
  by destruct (String.eqb text "").
Qed.

Lemma texts_items (lines : list string) :
  flat_map texts (map (λ desc, Elem "li" "" (textChild (Some desc))) lines)
  = flat_map (λ line, shown (Some line)) lines.
Proof.
  induction lines as [| line lines IH]; [done |].
  cbn [map flat_map texts]. by rewrite IH, texts_textChild.
Qed.

Lemma texts_descriptionList (d : option (list string)) :
  flat_map texts (descriptionList d) = shownLines d.
Proof.
  destruct d as [[| line rest] |]; try done.
  unfold descriptionList, shownLines.
  cbn [flat_map texts]. by rewrite app_nil_r, texts_items.
Qed.

Lemma texts_renderRole (role : Role.t) :
  texts (renderRole role) = roleTexts role.
Proof.
  unfold renderRole, roleTexts. cbn [texts].
  rewrite !flat_map_app, !texts_whenString, texts_descriptionList.
  cbn [flat_map texts]. by rewrite app_nil_r, texts_textChild.
Qed.

Lemma texts_renderSingleRole (exp : Experience.t) :
  texts (renderSingleRole exp) = flatTexts exp.
Proof.
  unfold renderSingleRole, flatTexts. cbn [texts].
  by rewrite !flat_map_app, !texts_whenString, texts_descriptionList.
Qed.

(** C7. An experience record whose roles list is present shows the company
    and then, role by role, the title, date range, location and description
    lines of each role, and nothing of its own flat fields: two records with
    the same company and the same roles render alike, whatever their flat
    fields are. A record whose roles list is absent shows the company and
    then its own title, date range, location and description lines. Which
    of the two it is depends on the presence of the roles list alone. *)
Theorem experience_shapes_exclusive (exp : Experience.t) :
  (∀ roles,
     Experience.roles exp = Some roles →
     texts (renderExperience exp)
     = shown (Some (Experience.company exp)) ++ flat_map roleTexts roles
     ∧ (∀ other,
          Experience.company other = Experience.company exp →
          Experience.roles other = Some roles →
          renderExperience other = renderExperience exp))
  ∧ (Experience.roles exp = None →
     texts (renderExperience exp)
     = shown (Some (Experience.company exp)) ++ flatTexts exp).
Proof.
  split.
  - intros roles Hroles. split.
    + unfold renderExperience. rewrite Hroles. cbn [texts flat_map].
      rewrite !app_nil_r, texts_textChild. f_equal.
      induction roles as [| role rest IH] in |- *; [done |].
      cbn [map flat_map]. by rewrite texts_renderRole, IH.
    + intros other Hcompany Hother. unfold renderExperience.
      by rewrite Hroles, Hother, Hcompany.
  - intros Hroles. unfold renderExperience. rewrite Hroles.
    cbn [texts flat_map].
    by rewrite !app_nil_r, texts_textChild, texts_renderSingleRole.
Qed.

Lemma experience_shapes_exclusive_witness :
  texts (renderExperience tenure)
  = ["Analytical"; "Engineer"; "2019 - 2021"; "Built engines"; "Lead"; "London"]
  ∧ texts (renderExperience job)
    = ["Difference"; "Analyst"; "2021 - 2024"; "Wrote notes"].
Proof.
  split.
  - destruct (experience_shapes_exclusive tenure) as (Hroles & _).
    destruct (Hroles _ eq_refl) as (Htexts & _). rewrite Htexts. reflexivity.
  - destruct (experience_shapes_exclusive job) as (_ & Hflat).
    rewrite (Hflat eq_refl). reflexivity.
Defined.

(** ** What an event can change *)

(** The request settles in one of two ways: the stored list and the index
    stay, or the list is replaced and the index becomes 0. Either way the
    flag goes down and no request is issued. *)
Lemma resume_cases (o : FetchOutcome) (s : AppState) :
  ∃ es,
    requestsOf es = []
    ∧ (handleSubmit_resume o s
       = (Some tt,
          mkState (linkedinUrl s) (sessionCookie s) (maxProfiles s) false
                  (profiles s) (currentProfileIndex s), es)
       ∨ ∃ profile,
           handleSubmit_resume o s
           = (Some tt,
              mkState (linkedinUrl s) (sessionCookie s) (maxProfiles s) false
                      (profileList profile) 0, es)).
Proof.
  destruct o as [| | data].
  - eexists. split; [| left; by apply resume_rejected; left]. done.
  - eexists. split; [| left; by apply resume_rejected; right]. done.
  - destruct (prop data "error") as [error |] eqn:Herror.
    + destruct (truthy error) eqn:Htruthy.
      * eexists. split; [| left; by apply (resume_error_field s data error)]. done.
      * destruct (prop_total data "error" "profile") as [profile Hprofile];
          [by eexists |].
        eexists. split;
          [| right; exists profile; by apply (resume_success s data error)].
        done.
    + eexists. split; [| left; by apply resume_type_error]. done.
Qed.

(** [exportToExcel] never touches the state and never issues a request. *)
Lemma exportToExcel_frame (rendered s : AppState) :
  stateAfter (exportToExcel rendered) s = s
  ∧ requestsOf (effectsOf (exportToExcel rendered) s) = [].
Proof.
  unfold stateAfter, effectsOf, exportToExcel.
  destruct (length (profiles rendered) =? 0)%nat; [done |].
  unfold bind. by destruct (mapM exportRow (profiles rendered)).
Qed.

(** Every event but the submit and the settling leaves the flag alone and
    issues no request. *)
Lemma other_events_frame (s : AppState) (ev : Event) :
  ev ≠ Submit → (∀ o, ev ≠ Settle o) →
  isRunning (stateAfter (handlerOf s ev) s) = isRunning s
  ∧ requestsOf (effectsOf (handlerOf s ev) s) = [].
Proof.
  intros Hsubmit Hsettle. destruct ev; try done.
  - destruct (exportToExcel_frame s s) as [Hstate Hrequests].
    simpl. by rewrite Hstate, Hrequests.
  - by destruct (Hsettle o).
Qed.

(** The submit event either is blocked by the validation or raises the flag
    and issues exactly one request. *)
Lemma handleSubmit_cases (s : AppState) :
  handleSubmit s s
  = (Some tt, s, [ToastError (JStr "Please fill in all required fields")])
  ∨ handleSubmit s s
    = (Some tt,
       mkState (linkedinUrl s) (sessionCookie s) (maxProfiles s) true
               (profiles s) (currentProfileIndex s),
       [Fetch endpoint (mkRequest (linkedinUrl s) (sessionCookie s) (maxProfiles s))]).
Proof.
  destruct (decide (linkedinUrl s = "")) as [Hurl | Hurl];
    [left; apply handleSubmit_blocked; by left |].
  destruct (decide (sessionCookie s = "")) as [Hcookie | Hcookie];
    [left; apply handleSubmit_blocked; by right |].
  right. by apply handleSubmit_sends.
Qed.

(** ** Single flight *)

Lemma submit_or_other (ev : Event) : ev = Submit ∨ ev ≠ Submit.
Proof. destruct ev; (by left) || (by right). Qed.

Lemma step_preserves_singleFlight (w w' : World) (ev : Event) :
  singleFlight w → step w ev w' → singleFlight w'.
Proof.
  intros [Hone Hflag] Hstep.
  destruct Hstep as [w ev Huser Hoffered | w o before req after Hpending].
  - destruct (submit_or_other ev) as [-> | Hother].
    + simpl in Hoffered. apply negb_true_iff in Hoffered.
      assert (inflight w = []) as Hidle.
      { destruct (inflight w); [done |]. rewrite Hflag in Hoffered; done. }
      unfold singleFlight, stateAfter, effectsOf. simpl. rewrite Hidle.
      destruct (handleSubmit_cases (ui w)) as [-> | ->]; simpl; split; auto; done.
    + destruct (other_events_frame (ui w) ev Hother Huser) as [Hrunning Hnone].
      unfold singleFlight. simpl. rewrite Hnone, app_nil_r, Hrunning. done.
  - rewrite Hpending in Hone. rewrite length_app in Hone. simpl in Hone.
    destruct before, after; simpl in Hone; try lia.
    destruct (resume_cases o (ui w)) as (es & Hnone & Hcases).
    unfold singleFlight, stateAfter, effectsOf. simpl.
    destruct Hcases as [-> | [profile ->]]; simpl; rewrite Hnone; split; auto; done.
Qed.

Lemma reachable_singleFlight (w : World) : reachable w → singleFlight w.
Proof.
  induction 1 as [| w ev w' _ IH Hstep].
  - split; simpl; [lia | done].
  - by apply (step_preserves_singleFlight w w' ev).
Qed.

Lemma submittedWorld_reachable : reachable submittedWorld.
Proof.
  pose (w1 := mkWorld (mkState typedUrl "" 1%Q false [] 0) []).
  pose (w2 := mkWorld (mkState typedUrl "li_at" 1%Q false [] 0) []).
  assert (reachable w1) as H1.
  { apply (reachable_step initialWorld (ChangeUrl typedUrl));
      [apply reachable_initial |].
    by apply (step_user initialWorld (ChangeUrl typedUrl)). }
  assert (reachable w2) as H2.
  { apply (reachable_step w1 (ChangeCookie "li_at")); [exact H1 |].
    by apply (step_user w1 (ChangeCookie "li_at")). }
  apply (reachable_step w2 Submit); [exact H2 |].
  by apply (step_user w2 Submit).
Qed.

(** C8. In every reachable state at most one request is outstanding. While
    one is, the flag [isRunning] is up and the submit control is disabled,
    so the next event is not a submit, and whatever the next event is, it
    adds no request. The flag is raised first and the request issued second:
    past the validation, [handleSubmit] is [setIsRunning(true)] followed by
    the fetch. *)
Theorem single_flight (w : World) :
  reachable w →
  (length (inflight w) ≤ 1)%nat
  ∧ (inflight w ≠ [] →
     isRunning (ui w) = true
     ∧ offered (ui w) Submit = false
     ∧ (∀ ev w', step w ev w' →
          ev ≠ Submit ∧ (length (inflight w') ≤ length (inflight w))%nat))
  ∧ (linkedinUrl (ui w) ≠ "" → sessionCookie (ui w) ≠ "" →
     handleSubmit (ui w)
     = (setIsRunning true ;;;
        emit (Fetch endpoint
                (mkRequest (linkedinUrl (ui w)) (sessionCookie (ui w))
                           (maxProfiles (ui w)))))).
Proof.
  intros Hreach.
  pose proof (reachable_singleFlight w Hreach) as [Hone Hflag].
  split; [exact Hone |]. split.
  - intros Hbusy. specialize (Hflag Hbusy).
    split; [exact Hflag |]. split; [simpl; by rewrite Hflag |].
    intros ev w' Hstep.
    assert (ev ≠ Submit) as Hother.
    { intros ->. inversion Hstep as [w0 ev0 _ Hoffered |]; subst.
      simpl in Hoffered. by rewrite Hflag in Hoffered. }
    split; [exact Hother |].
    pose proof (step_preserves_singleFlight w w' ev (conj Hone (λ _, Hflag)) Hstep)
      as [Hone' _].
    destruct (inflight w); [done | simpl; lia].
  - intros Hurl Hcookie. unfold handleSubmit.
    apply string_eqb_empty in Hurl, Hcookie. by rewrite Hurl, Hcookie.
Qed.

Lemma single_flight_witness :
  (length (inflight submittedWorld) ≤ 1)%nat
  ∧ isRunning (ui submittedWorld) = true
  ∧ offered (ui submittedWorld) Submit = false.
Proof.
  destruct (single_flight submittedWorld submittedWorld_reachable)
    as (Hone & Hbusy & _).
  destruct Hbusy as (Hflag & Hdisabled & _); [discriminate |].
  split; [exact Hone |]. split; [exact Hflag | exact Hdisabled].
Defined.

(** ** The carousel index *)

Lemma indexInRange_first (u c : string) (m : Q) (r : bool) (stored : list JsVal) :
  indexInRange (mkState u c m r stored 0).
Proof.
  split; simpl; [lia |]. destruct stored; [done | simpl; lia].
Qed.

Lemma handler_preserves_index (s : AppState) (ev : Event) :
  indexInRange s → indexInRange (stateAfter (handlerOf s ev) s).
Proof.
  intros Hrange. pose proof Hrange as [Hlow Hhigh].
  destruct ev as [v | v | v | | | | | o]; simpl; try exact Hrange.
  - unfold stateAfter.
    by destruct (handleSubmit_cases s) as [-> | ->].
  - unfold stateAfter. rewrite goToPrevious_result.
    split; simpl; destruct (Z.ltb_spec 0 (currentProfileIndex s)); try lia;
      intros Hsome; specialize (Hhigh Hsome); lia.
  - unfold stateAfter. rewrite goToNext_result.
    split; simpl;
      destruct (Z.ltb_spec (currentProfileIndex s)
                           (Z.of_nat (length (profiles s)) - 1));
      try lia; intros Hsome; specialize (Hhigh Hsome); lia.
  - by destruct (exportToExcel_frame s s) as [-> _].
  - unfold stateAfter.
    destruct (resume_cases o s) as (es & _ & [-> | [profile ->]]);
      [exact Hrange | apply indexInRange_first].
Qed.

(** C9. Every handler -- the submit, the settling of the request with a
    success or a failure, previous, next, export and the three inputs --
    takes a state whose index is in range to one whose index is in range;
    the initial state (no profile, index 0) is in range; so every reachable
    state is: the index is at least 0, and at most length - 1 when a profile
    is stored. *)
Theorem index_stays_in_range :
  (∀ s ev, indexInRange s → indexInRange (stateAfter (handlerOf s ev) s))
  ∧ indexInRange initialState
  ∧ (∀ w, reachable w →
       0 ≤ currentProfileIndex (ui w)
       ∧ (profiles (ui w) ≠ [] →
          currentProfileIndex (ui w) ≤ Z.of_nat (length (profiles (ui w))) - 1)).
Proof.
  split; [exact handler_preserves_index |].
  split; [apply indexInRange_first |].
  intros w Hreach. change (indexInRange (ui w)).
  induction Hreach as [| w ev w' _ IH Hstep]; [apply indexInRange_first |].
  destruct Hstep as [w ev _ _ | w o before req after _]; simpl.
  - by apply handler_preserves_index.
  - by apply (handler_preserves_index (ui w) (Settle o)).
Qed.

Lemma index_stays_in_range_witness :
  0 ≤ currentProfileIndex (ui submittedWorld)
  ∧ indexInRange (stateAfter (handlerOf browsing ClickNext) browsing).
Proof.
  destruct index_stays_in_range as (Hpreserved & _ & Hreachable).
  split.
  - destruct (Hreachable submittedWorld submittedWorld_reachable) as [Hlow _].
    exact Hlow.
  - apply (Hpreserved browsing ClickNext).
    split; simpl; [lia | intros _; lia].
Defined.

(** ** What navigation and export leave alone *)

(** C10. [goToPrevious] and [goToNext] leave the stored list, the three
    inputs and the flag as they are and emit nothing: of the state only the
    index can differ. [exportToExcel] leaves the whole state as it is,
    whether it shows the toast, writes the file or throws. *)
Theorem navigation_and_export_frame (rendered s : AppState) :
  (profiles (stateAfter goToPrevious s) = profiles s
   ∧ linkedinUrl (stateAfter goToPrevious s) = linkedinUrl s
   ∧ sessionCookie (stateAfter goToPrevious s) = sessionCookie s
   ∧ maxProfiles (stateAfter goToPrevious s) = maxProfiles s
   ∧ isRunning (stateAfter goToPrevious s) = isRunning s
   ∧ effectsOf goToPrevious s = [])
  ∧ (profiles (stateAfter (goToNext rendered) s) = profiles s
     ∧ linkedinUrl (stateAfter (goToNext rendered) s) = linkedinUrl s
     ∧ sessionCookie (stateAfter (goToNext rendered) s) = sessionCookie s
     ∧ maxProfiles (stateAfter (goToNext rendered) s) = maxProfiles s
     ∧ isRunning (stateAfter (goToNext rendered) s) = isRunning s
     ∧ effectsOf (goToNext rendered) s = [])
  ∧ stateAfter (exportToExcel rendered) s = s.
Proof.
  split; [| split].
  - unfold stateAfter, effectsOf. by rewrite goToPrevious_result.
  - unfold stateAfter, effectsOf. by rewrite goToNext_result.
  - apply exportToExcel_frame.
Qed.

(** ** Remarks on the limits of the properties above *)

(** The export theorem asks the stored values to be profiles, and it has to:
    on the list [[undefined]], which the response [{}] leaves behind, the
    callback of [map] throws and nothing is written. *)
Remark export_throws_on_undefined :
  threw (exportToExcel (mkState "u" "c" 1%Q false [JUndefined] 0))
        (mkState "u" "c" 1%Q false [JUndefined] 0) = true
  ∧ effectsOf (exportToExcel (mkState "u" "c" 1%Q false [JUndefined] 0))
              (mkState "u" "c" 1%Q false [JUndefined] 0) = [].
Proof. split; reflexivity. Qed.

(** That one request at most is outstanding rests on the disabled submit
    control alone:
    [handleSubmit] does not read [isRunning], and run on a state
    whose flag is up it issues a request all the same. *)
Remark handleSubmit_reads_no_flag :
  effectsOf (handleSubmit waiting) waiting
  = [Fetch endpoint (mkRequest (linkedinUrl waiting) (sessionCookie waiting)
                               (maxProfiles waiting))].
Proof. reflexivity. Qed.

(** * Further properties of the handlers *)

(** ** The settling of a request *)

(** Whatever the outcome, the rest of [handleSubmit] does not throw, lowers
    the flag, leaves the three inputs alone and calls the toast library
    exactly once: [toast.error] on a failed outcome, [toast.success] with
    the fixed text otherwise. The message of [toast.error] is the payload's
    error value as it is; what the library makes of a message that is not a
    string is not stated here. *)
Theorem settle_idles_with_one_toast (o : FetchOutcome) (s : AppState) :
  threw (handleSubmit_resume o) s = false
  ∧ isRunning (stateAfter (handleSubmit_resume o) s) = false
  ∧ linkedinUrl (stateAfter (handleSubmit_resume o) s) = linkedinUrl s
  ∧ sessionCookie (stateAfter (handleSubmit_resume o) s) = sessionCookie s
  ∧ maxProfiles (stateAfter (handleSubmit_resume o) s) = maxProfiles s
  ∧ (if failedOutcome o
     then ∃ msg, filter (λ e, isToast e = true) (effectsOf (handleSubmit_resume o) s)
                 = [ToastError msg]
     else filter (λ e, isToast e = true) (effectsOf (handleSubmit_resume o) s)
          = [ToastSuccess (JStr "Profiles scraped successfully!")])
  ∧ (∀ data error,
       o = JsonResolved data → prop data "error" = Some error →
       truthy error = true →
       filter (λ e, isToast e = true) (effectsOf (handleSubmit_resume o) s)
       = [ToastError error])
  ∧ (o = FetchRejected ∨ o = JsonRejected
     ∨ (∃ data, o = JsonResolved data ∧ prop data "error" = None) →
     filter (λ e, isToast e = true) (effectsOf (handleSubmit_resume o) s)
     = [ToastError (JStr "Failed to scrape profiles")]).
Proof.
  unfold threw, stateAfter, effectsOf.
  destruct o as [| | data]; simpl failedOutcome.
  - rewrite (resume_rejected s FetchRejected) by auto.
    repeat split; [by eexists | done].
  - rewrite (resume_rejected s JsonRejected) by auto.
    repeat split; [by eexists | done].
  - destruct (prop data "error") as [error |] eqn:Herror.
    + destruct (truthy error) eqn:Htruthy.
      * rewrite (resume_error_field s data error) by done.
        repeat split; [by eexists | |].
        -- intros data' error' [= <-] Herror' _.
           by assert (error' = error) as -> by congruence.
        -- intros [? | [? | (data' & [= <-] & Hnone)]]; try done. congruence.
      * destruct (prop_total data "error" "profile") as [profile Hprofile];
          [by eexists |].
        rewrite (resume_success s data error profile) by done.
        repeat split.
        -- intros data' error' [= <-] Herror' Htruthy'. congruence.
        -- intros [? | [? | (data' & [= <-] & Hnone)]]; try done. congruence.
    + rewrite (resume_type_error s data) by done.
      repeat split; [by eexists |].
      intros data' error' [= <-] Herror'. congruence.
Qed.

(** A response that is taken as a success and holds the empty array empties
    the stored list: the export button and the carousel are no longer
    rendered, although the success toast is shown. *)
Theorem empty_array_hides_carousel (s : AppState) (data error : JsVal) :
  prop data "error" = Some error → truthy error = false →
  prop data "profile" = Some (JArr []) →
  profiles (stateAfter (handleSubmit_resume (JsonResolved data)) s) = []
  ∧ carouselShown (stateAfter (handleSubmit_resume (JsonResolved data)) s) = false
  ∧ (∀ ev, ev = ClickExport ∨ ev = ClickPrevious ∨ ev = ClickNext →
       offered (stateAfter (handleSubmit_resume (JsonResolved data)) s) ev = false)
  ∧ ToastSuccess (JStr "Profiles scraped successfully!")
    ∈ effectsOf (handleSubmit_resume (JsonResolved data)) s.
Proof.
  intros Herror Hfalsy Hprofile. unfold stateAfter, effectsOf.
  rewrite (resume_success s data error (JArr [])) by done. simpl.
  repeat split; [| in_list].
  by intros ev [-> | [-> | ->]].
Qed.

Lemma empty_array_hides_carousel_witness :
  carouselShown
    (stateAfter
       (handleSubmit_resume (JsonResolved (JObj {[ "profile" := JArr [] ]})))
       waiting)
  = false.
Proof.
  destruct (empty_array_hides_carousel waiting
              (JObj {[ "profile" := JArr [] ]}) JUndefined)
    as (_ & Hhidden & _); [reflexivity | reflexivity | reflexivity |].
  exact Hhidden.
Defined.

(** A response that is taken as a success and whose [profile] member is
    missing or [null] stores a one-element list holding [undefined] or
    [null]: the carousel is rendered, the position line reads 1 of 1, and
    the first read of the current profile, [currentProfile.name], throws. *)
Theorem nullish_profile_breaks_render (s : AppState) (data error profile : JsVal) :
  prop data "error" = Some error → truthy error = false →
  prop data "profile" = Some profile → nullish profile = true →
  profiles (stateAfter (handleSubmit_resume (JsonResolved data)) s) = [profile]
  ∧ carouselShown (stateAfter (handleSubmit_resume (JsonResolved data)) s) = true
  ∧ positionIndicator (stateAfter (handleSubmit_resume (JsonResolved data)) s)
    = (1, 1)
  ∧ currentProfile (stateAfter (handleSubmit_resume (JsonResolved data)) s) = profile
  ∧ headerName (stateAfter (handleSubmit_resume (JsonResolved data)) s) = None.
Proof.
  intros Herror Hfalsy Hprofile Hnullish. unfold stateAfter.
  rewrite (resume_success s data error profile) by done.
  by destruct profile.
Qed.

Lemma nullish_profile_breaks_render_witness :
  headerName (stateAfter (handleSubmit_resume (JsonResolved (JObj ∅))) waiting)
  = None.
Proof.
  destruct (nullish_profile_breaks_render waiting (JObj ∅) JUndefined JUndefined)
    as (_ & _ & _ & _ & Hthrows);
    [reflexivity | reflexivity | reflexivity | reflexivity | exact Hthrows].
Defined.

(** ** The submit event *)

(** [handleSubmit] issues a request exactly when the URL and the cookie are
    both non-empty -- no other check is made, so a string of blanks passes --
    and then it issues one request only, to the scraping endpoint, carrying
    the three inputs as they are, and raises the flag; it never throws and
    never touches the inputs, the stored list or the index. *)
Theorem request_iff_fields_filled (s : AppState) :
  (requestsOf (effectsOf (handleSubmit s) s) ≠ []
   ↔ linkedinUrl s ≠ "" ∧ sessionCookie s ≠ "")
  ∧ (requestsOf (effectsOf (handleSubmit s) s) ≠ [] →
     effectsOf (handleSubmit s) s
     = [Fetch endpoint (mkRequest (linkedinUrl s) (sessionCookie s) (maxProfiles s))]
     ∧ isRunning (stateAfter (handleSubmit s) s) = true)
  ∧ threw (handleSubmit s) s = false
  ∧ linkedinUrl (stateAfter (handleSubmit s) s) = linkedinUrl s
  ∧ sessionCookie (stateAfter (handleSubmit s) s) = sessionCookie s
  ∧ maxProfiles (stateAfter (handleSubmit s) s) = maxProfiles s
  ∧ profiles (stateAfter (handleSubmit s) s) = profiles s
  ∧ currentProfileIndex (stateAfter (handleSubmit s) s) = currentProfileIndex s.
Proof.
  unfold threw, stateAfter, effectsOf.
  destruct (decide (linkedinUrl s = "")) as [Hurl | Hurl];
    [| destruct (decide (sessionCookie s = "")) as [Hcookie | Hcookie]].
  - rewrite (handleSubmit_blocked s) by auto. simpl.
    repeat split; try done. by intros [? _].
  - rewrite (handleSubmit_blocked s) by auto. simpl.
    repeat split; try done. by intros [_ ?].
  - rewrite (handleSubmit_sends s) by done. simpl.
    repeat split; done.
Qed.

(** ** More on navigation *)

Lemma clickPrevious_result (s : AppState) :
  clickPrevious s
  = mkState (linkedinUrl s) (sessionCookie s) (maxProfiles s) (isRunning s)
            (profiles s)
            (if 0 <? currentProfileIndex s
             then currentProfileIndex s - 1 else currentProfileIndex s).
Proof. unfold clickPrevious, stateAfter. by rewrite goToPrevious_result. Qed.

Lemma clickNext_result (s : AppState) :
  clickNext s
  = mkState (linkedinUrl s) (sessionCookie s) (maxProfiles s) (isRunning s)
            (profiles s)
            (if currentProfileIndex s <? Z.of_nat (length (profiles s)) - 1
             then currentProfileIndex s + 1 else currentProfileIndex s).
Proof. unfold clickNext, stateAfter. by rewrite goToNext_result. Qed.

(** With the index on a position of a list of N profiles, previous after
    next gives the state back exactly when the carousel was not on its last
    profile or N = 1, and next after previous gives it back exactly when the
    carousel was not on its first profile or N = 1. With N > 1, previous
    after next from the last profile ends one before the last, and next
    after previous from the first profile ends on the second. *)
Theorem next_previous_round_trip (s : AppState) :
  0 ≤ currentProfileIndex s ≤ Z.of_nat (length (profiles s)) - 1 →
  (clickPrevious (clickNext s) = s
   ↔ currentProfileIndex s < Z.of_nat (length (profiles s)) - 1
     ∨ Z.of_nat (length (profiles s)) = 1)
  ∧ (clickNext (clickPrevious s) = s
     ↔ 0 < currentProfileIndex s ∨ Z.of_nat (length (profiles s)) = 1)
  ∧ (1 < Z.of_nat (length (profiles s)) →
     currentProfileIndex s = Z.of_nat (length (profiles s)) - 1 →
     currentProfileIndex (clickPrevious (clickNext s)) = currentProfileIndex s - 1)
  ∧ (1 < Z.of_nat (length (profiles s)) →
     currentProfileIndex s = 0 →
     currentProfileIndex (clickNext (clickPrevious s)) = 1).
Proof.
  intros Hrange.
  repeat (rewrite clickPrevious_result || rewrite clickNext_result).
  destruct s as [u c m r stored i]. cbn [profiles currentProfileIndex] in *.
  generalize dependent (Z.of_nat (length stored)). intros N Hrange.
  repeat split; intros;
    repeat match goal with
           | H : mkState _ _ _ _ _ _ = mkState _ _ _ _ _ _ |- _ =>
               injection H as H
           | H : context [?a <? ?b] |- _ => destruct (Z.ltb_spec a b); simpl in H
           | |- context [?a <? ?b] => destruct (Z.ltb_spec a b); simpl
           end;
    try lia; f_equal; lia.
Qed.

Lemma next_previous_round_trip_witness :
  clickPrevious (clickNext threeProfiles) = threeProfiles
  ∧ clickNext (clickPrevious threeProfiles) ≠ threeProfiles.
Proof.
  destruct (next_previous_round_trip threeProfiles) as (Hback & Hforth & _);
    [simpl; lia |].
  split.
  - apply Hback. left. simpl. lia.
  - intros Hsame. apply Hforth in Hsame. simpl in Hsame. lia.
Defined.

Lemma iter_keeps_profiles (f : AppState → AppState) (k : nat) (s : AppState) :
  (∀ t, profiles (f t) = profiles t) →
  profiles (Nat.iter k f s) = profiles s.
Proof.
  intros Hkeeps. induction k as [| k IH]; [done |].
  by rewrite Nat.iter_succ, Hkeeps.
Qed.

Lemma iter_clickNext (k : nat) (s : AppState) :
  currentProfileIndex s ≤ Z.of_nat (length (profiles s)) - 1 →
  profiles (Nat.iter k clickNext s) = profiles s
  ∧ currentProfileIndex (Nat.iter k clickNext s)
    = Z.min (currentProfileIndex s + Z.of_nat k) (Z.of_nat (length (profiles s)) - 1).
Proof.
  intros Hrange.
  assert (∀ j, profiles (Nat.iter j clickNext s) = profiles s) as Hkeeps.
  { intros j. apply iter_keeps_profiles. intros t. by rewrite clickNext_result. }
  split; [apply Hkeeps |].
  induction k as [| k IH]; [simpl; lia |].
  rewrite Nat.iter_succ, clickNext_result. cbn [currentProfileIndex profiles].
  rewrite Hkeeps, IH.
  destruct (Z.ltb_spec
              (Z.min (currentProfileIndex s + Z.of_nat k)
                     (Z.of_nat (length (profiles s)) - 1))
              (Z.of_nat (length (profiles s)) - 1)); lia.
Qed.

Lemma iter_clickPrevious (k : nat) (s : AppState) :
  0 ≤ currentProfileIndex s →
  profiles (Nat.iter k clickPrevious s) = profiles s
  ∧ currentProfileIndex (Nat.iter k clickPrevious s)
    = Z.max (currentProfileIndex s - Z.of_nat k) 0.
Proof.
  intros Hrange. split.
  { apply iter_keeps_profiles. intros t. by rewrite clickPrevious_result. }
  induction k as [| k IH]; [simpl; lia |].
  rewrite Nat.iter_succ, clickPrevious_result. cbn [currentProfileIndex].
  rewrite IH.
  destruct (Z.ltb_spec 0 (Z.max (currentProfileIndex s - Z.of_nat k) 0)); lia.
Qed.

(** Clicking next k times from a position of the list moves the carousel k
    profiles on, and no further than the last one; clicking previous k times
    moves it k profiles back, and no further than the first one. Neither
    touches the stored list. *)
Theorem repeated_clicks_saturate (k : nat) (s : AppState) :
  0 ≤ currentProfileIndex s ≤ Z.of_nat (length (profiles s)) - 1 →
  currentProfileIndex (Nat.iter k clickNext s)
  = Z.min (currentProfileIndex s + Z.of_nat k) (Z.of_nat (length (profiles s)) - 1)
  ∧ currentProfileIndex (Nat.iter k clickPrevious s)
    = Z.max (currentProfileIndex s - Z.of_nat k) 0
  ∧ profiles (Nat.iter k clickNext s) = profiles s
  ∧ profiles (Nat.iter k clickPrevious s) = profiles s.
Proof.
  intros [Hlow Hhigh].
  destruct (iter_clickNext k s Hhigh) as [Hnext_list Hnext].
  destruct (iter_clickPrevious k s Hlow) as [Hprevious_list Hprevious].
  done.
Qed.

Lemma repeated_clicks_saturate_witness :
  currentProfileIndex (Nat.iter 5 clickNext threeProfiles) = 2
  ∧ currentProfileIndex (Nat.iter 5 clickPrevious browsing) = 0.
Proof.
  destruct (repeated_clicks_saturate 5 threeProfiles) as (Hnext & _);
    [simpl; lia |].
  destruct (repeated_clicks_saturate 5 browsing) as (_ & Hprevious & _);
    [simpl; lia |].
  split; [exact Hnext | exact Hprevious].
Defined.

(** With the carousel rendered on a position of the list, an arrow is
    disabled exactly when its handler would leave the state as it is: the
    disabled controls hide no move, and every enabled arrow moves. *)
Theorem disabled_arrow_iff_no_move (s : AppState) :
  profiles s ≠ [] →
  0 ≤ currentProfileIndex s ≤ Z.of_nat (length (profiles s)) - 1 →
  (offered s ClickPrevious = false ↔ clickPrevious s = s)
  ∧ (offered s ClickNext = false ↔ clickNext s = s).
Proof.
  intros Hsome Hrange. rewrite clickPrevious_result, clickNext_result.
  destruct s as [u c m r stored i].
  unfold offered. cbn [profiles currentProfileIndex] in *.
  assert ((0 <? length stored)%nat = true) as -> by (by destruct stored).
  cbn [andb]. generalize dependent (Z.of_nat (length stored)). intros N Hrange.
  split.
  - destruct (Z.eqb_spec i 0), (Z.ltb_spec 0 i); simpl; try lia;
      split; try done; intros [= ?]; lia.
  - destruct (Z.eqb_spec i (N - 1)), (Z.ltb_spec i (N - 1)); simpl; try lia;
      split; try done; intros [= ?]; lia.
Qed.

Lemma disabled_arrow_iff_no_move_witness :
  clickPrevious threeProfiles = threeProfiles.
Proof.
  destruct (disabled_arrow_iff_no_move threeProfiles) as ((Hstays & _) & _);
    [discriminate | simpl; lia |].
  apply Hstays. reflexivity.
Defined.

(** ** More on the export *)

Lemma exportRow_throws_iff (profile : JsVal) :
  exportRow profile = None ↔ nullish profile = true.
Proof. by destruct profile. Qed.

Lemma exportToExcel_outcome (s : AppState) :
  profiles s ≠ [] →
  exportToExcel s s
  = match mapM exportRow (profiles s) with
    | Some rows =>
        (Some tt, s, [WriteFile [("Profiles", mkSheet rows)] "profiles.xlsx"])
    | None => (None, s, [])
    end.
Proof.
  intros Hsome. unfold exportToExcel.
  destruct (profiles s) as [| first rest] eqn:Hstored; [done |].
  cbn [length Nat.eqb]. unfold bind.
  by destruct (mapM exportRow (first :: rest)).
Qed.

(** With profiles stored, the export is all or nothing. It throws exactly
    when one of the stored values is [undefined] or [null], and then it
    writes no file and shows no toast; otherwise it writes one file whose
    sheet has as many rows as values are stored, whatever these values are
    (objects, strings, numbers, arrays). *)
Theorem export_all_or_nothing (s : AppState) :
  profiles s ≠ [] →
  (threw (exportToExcel s) s = true
   ↔ ∃ profile, profile ∈ profiles s ∧ nullish profile = true)
  ∧ (threw (exportToExcel s) s = true → effectsOf (exportToExcel s) s = [])
  ∧ (threw (exportToExcel s) s = false →
     ∃ rows,
       effectsOf (exportToExcel s) s
       = [WriteFile [("Profiles", mkSheet rows)] "profiles.xlsx"]
       ∧ length rows = length (profiles s)
       ∧ ∀ row, row ∈ rows → row.*1 = exportColumns).
Proof.
  intros Hsome. unfold threw, effectsOf.
  rewrite (exportToExcel_outcome s Hsome).
  destruct (mapM exportRow (profiles s)) as [rows |] eqn:Hrows; simpl.
  - apply mapM_Some in Hrows. split; [| split; [done |]].
    + split; [done |]. intros (profile & Hin & Hnullish).
      apply exportRow_throws_iff in Hnullish.
      apply list_elem_of_lookup in Hin as [i Hi].
      destruct (Forall2_lookup_l _ _ _ _ _ Hrows Hi) as (row & _ & Hrow).
      congruence.
    + intros _. exists rows. split; [done |].
      split; [symmetry; by eapply Forall2_length |].
      intros row Hin.
      apply list_elem_of_lookup in Hin as [i Hi].
      destruct (Forall2_lookup_r _ _ _ _ _ Hrows Hi) as (profile & _ & Hrow).
      unfold exportRow in Hrow.
      destruct (prop profile "name"), (prop profile "profile_url"),
               (prop profile "title"), (prop profile "location");
        simpl in Hrow; try discriminate.
      by injection Hrow as <-.
  - apply mapM_None, Exists_exists in Hrows as (profile & Hin & Hnone).
    split; [| split; [done | done]].
    split; [| done]. intros _. exists profile.
    split; [exact Hin | by apply exportRow_throws_iff].
Qed.

Lemma export_all_or_nothing_witness :
  effectsOf (exportToExcel (mkState typedUrl "li_at" 2%Q false [ada; JNull] 0))
            (mkState typedUrl "li_at" 2%Q false [ada; JNull] 0)
  = [].
Proof.
  destruct (export_all_or_nothing (mkState typedUrl "li_at" 2%Q false [ada; JNull] 0))
    as (Hthrows & Hnothing & _); [discriminate |].
  apply Hnothing, Hthrows. exists JNull. split; [in_list | reflexivity].
Defined.

(** The export button is rendered only while profiles are stored, so a click
    on it never shows a toast: the notice that there is nothing to export
    cannot be reached through the button. The click changes no state. *)
Theorem export_button_never_toasts (s : AppState) :
  offered s ClickExport = true →
  filter (λ e, isToast e = true) (effectsOf (handlerOf s ClickExport) s) = []
  ∧ (ToastError (JStr "No profiles to export")
     ∉ effectsOf (handlerOf s ClickExport) s)
  ∧ stateAfter (handlerOf s ClickExport) s = s.
Proof.
  intros Hoffered. simpl in Hoffered.
  assert (profiles s ≠ []) as Hsome by (by destruct (profiles s)).
  unfold stateAfter, effectsOf. simpl handlerOf.
  rewrite (exportToExcel_outcome s Hsome).
  destruct (mapM exportRow (profiles s)) as [rows |]; simpl.
  - repeat split. intros Hin. apply list_elem_of_singleton in Hin. discriminate.
  - repeat split. apply not_elem_of_nil.
Qed.

Lemma export_button_never_toasts_witness :
  filter (λ e, isToast e = true) (effectsOf (handlerOf browsing ClickExport) browsing)
  = [].
Proof.
  destruct (export_button_never_toasts browsing) as (Hquiet & _);
    [reflexivity | exact Hquiet].
Defined.

(** ** More on the event loop *)

Lemma reachable_indexInRange (w : World) : reachable w → indexInRange (ui w).
Proof.
  induction 1 as [| w ev w' _ IH Hstep]; [apply indexInRange_first |].
  destruct Hstep as [w ev _ _ | w o before req after _]; simpl.
  - by apply handler_preserves_index.
  - by apply (handler_preserves_index (ui w) (Settle o)).
Qed.

(** In every reachable state in which the carousel is rendered, the current
    profile is one of the stored values (the index never reads past the
    array), and the position line reads X of Y with 1 <= X <= Y. *)
Theorem current_profile_is_stored (w : World) :
  reachable w → carouselShown (ui w) = true →
  currentProfile (ui w) ∈ profiles (ui w)
  ∧ profiles (ui w) !! Z.to_nat (currentProfileIndex (ui w))
    = Some (currentProfile (ui w))
  ∧ 1 ≤ (positionIndicator (ui w)).1 ≤ (positionIndicator (ui w)).2
  ∧ (positionIndicator (ui w)).2 = Z.of_nat (length (profiles (ui w))).
Proof.
  intros Hreach Hshown.
  destruct (reachable_indexInRange w Hreach) as [Hlow Hhigh].
  unfold carouselShown in Hshown. apply Nat.ltb_lt in Hshown.
  assert (profiles (ui w) ≠ []) as Hsome.
  { intros Hnone. rewrite Hnone in Hshown. simpl in Hshown. lia. }
  specialize (Hhigh Hsome).
  assert (is_Some (profiles (ui w) !! Z.to_nat (currentProfileIndex (ui w))))
    as [profile Hprofile] by (apply lookup_lt_is_Some; lia).
  assert (currentProfile (ui w) = profile) as Hcurrent.
  { unfold currentProfile. rewrite Hprofile.
    by destruct (Z.leb_spec 0 (currentProfileIndex (ui w))); [| lia]. }
  rewrite Hcurrent. unfold positionIndicator. simpl.
  repeat split; [by eapply list_elem_of_lookup_2 | done | lia | lia].
Qed.

Lemma loadedWorld_step :
  step submittedWorld
       (Settle (JsonResolved (JObj {[ "profile" := JArr [ada; bob] ]})))
       loadedWorld.
Proof.
  pose proof (step_settle submittedWorld
                (JsonResolved (JObj {[ "profile" := JArr [ada; bob] ]}))
                [] (mkRequest typedUrl "li_at" 1%Q) [] eq_refl) as Hstep.
  unfold stateAfter, effectsOf in Hstep.
  by rewrite (resume_success _ _ JUndefined (JArr [ada; bob])) in Hstep.
Qed.

Lemma loadedWorld_reachable : reachable loadedWorld.
Proof.
  exact (reachable_step _ _ _ submittedWorld_reachable loadedWorld_step).
Qed.

Lemma current_profile_is_stored_witness :
  currentProfile (ui loadedWorld) ∈ profiles (ui loadedWorld)
  ∧ 1 ≤ (positionIndicator (ui loadedWorld)).1 ≤ (positionIndicator (ui loadedWorld)).2.
Proof.
  destruct (current_profile_is_stored loadedWorld loadedWorld_reachable eq_refl)
    as (Hstored & _ & Hposition & _).
  split; [exact Hstored | exact Hposition].
Defined.

Lemma step_preserves_flag_down (w w' : World) (ev : Event) :
  singleFlight w →
  (isRunning (ui w) = true → inflight w ≠ []) →
  step w ev w' →
  isRunning (ui w') = true → inflight w' ≠ [].
Proof.
  intros [Hone Hflag] Hbusy Hstep.
  destruct Hstep as [w ev Huser Hoffered | w o before req after Hpending].
  - destruct (submit_or_other ev) as [-> | Hother].
    + unfold stateAfter, effectsOf. simpl.
      simpl in Hoffered. apply negb_true_iff in Hoffered.
      destruct (handleSubmit_cases (ui w)) as [-> | ->]; simpl.
      * by rewrite Hoffered.
      * intros _. by destruct (inflight w).
    + destruct (other_events_frame (ui w) ev Hother Huser) as [Hrunning Hnone].
      simpl. by rewrite Hnone, app_nil_r, Hrunning.
  - unfold stateAfter. simpl.
    by destruct (resume_cases o (ui w)) as (es & _ & [-> | [profile ->]]).
Qed.

Lemma reachable_flag_down (w : World) :
  reachable w → isRunning (ui w) = true → inflight w ≠ [].
Proof.
  induction 1 as [| w ev w' Hreach IH Hstep]; [done |].
  by apply (step_preserves_flag_down w w' ev);
    [apply reachable_singleFlight | |].
Qed.

(** In every reachable state the flag is up exactly while a request is
    outstanding: the button reads Processing... and is disabled for as long
    as the request has not settled, and reads Start Export and is enabled as
    soon as it has. *)
Theorem processing_iff_request_outstanding (w : World) :
  reachable w →
  (isRunning (ui w) = true ↔ inflight w ≠ [])
  ∧ (submitLabel (ui w) = "Processing..." ↔ inflight w ≠ [])
  ∧ (submitLabel (ui w) = "Start Export" ↔ inflight w = [])
  ∧ (offered (ui w) Submit = true ↔ inflight w = []).
Proof.
  intros Hreach.
  pose proof (reachable_flag_down w Hreach) as Hdown.
  destruct (reachable_singleFlight w Hreach) as [_ Hup].
  unfold submitLabel. simpl offered.
  destruct (isRunning (ui w)); simpl.
  - specialize (Hdown eq_refl). repeat split; try done.
  - assert (inflight w = []) as Hidle.
    { destruct (inflight w) as [| req rest]; [done |]. by specialize (Hup ltac:(done)). }
    rewrite Hidle. repeat split; try done.
Qed.

Lemma processing_iff_request_outstanding_witness :
  submitLabel (ui submittedWorld) = "Processing..."
  ∧ submitLabel (ui loadedWorld) = "Start Export".
Proof.
  destruct (processing_iff_request_outstanding submittedWorld submittedWorld_reachable)
    as (_ & Hbusy & _).
  destruct (processing_iff_request_outstanding loadedWorld loadedWorld_reachable)
    as (_ & _ & Hidle & _).
  split; [apply Hbusy; discriminate | apply Hidle; reflexivity].
Defined.

Lemma resume_failed_state (o : FetchOutcome) (s : AppState) :
  failedOutcome o = true →
  stateAfter (handleSubmit_resume o) s
  = mkState (linkedinUrl s) (sessionCookie s) (maxProfiles s) false
            (profiles s) (currentProfileIndex s).
Proof.
  intros Hfailed. unfold stateAfter.
  destruct o as [| | data]; simpl in Hfailed.
  - by rewrite (resume_rejected s FetchRejected) by auto.
  - by rewrite (resume_rejected s JsonRejected) by auto.
  - destruct (prop data "error") as [error |] eqn:Herror.
    + by rewrite (resume_error_field s data error).
    + by rewrite (resume_type_error s data).
Qed.

(** Every state cell has its own writers. In one event, the URL changes
    only by typing into the URL input, the cookie and the count likewise;
    the stored list changes only when a request settles with an outcome that
    is not a failure; the index changes only by an arrow or by such an
    outcome; the flag changes only by the submit or by a settling. *)
Theorem cells_have_their_writers (w w' : World) (ev : Event) :
  step w ev w' →
  (linkedinUrl (ui w') ≠ linkedinUrl (ui w) → ∃ v, ev = ChangeUrl v)
  ∧ (sessionCookie (ui w') ≠ sessionCookie (ui w) → ∃ v, ev = ChangeCookie v)
  ∧ (maxProfiles (ui w') ≠ maxProfiles (ui w) → ∃ v, ev = ChangeMax v)
  ∧ (profiles (ui w') ≠ profiles (ui w) →
     ∃ o, ev = Settle o ∧ failedOutcome o = false)
  ∧ (currentProfileIndex (ui w') ≠ currentProfileIndex (ui w) →
     ev = ClickPrevious ∨ ev = ClickNext
     ∨ ∃ o, ev = Settle o ∧ failedOutcome o = false)
  ∧ (isRunning (ui w') ≠ isRunning (ui w) → ev = Submit ∨ ∃ o, ev = Settle o).
Proof.
  intros Hstep.
  destruct Hstep as [w ev Huser Hoffered | w o before req after Hpending].
  - destruct ev as [v | v | v | | | | | o]; cbn [handlerOf ui]; unfold stateAfter.
    + simpl. repeat split; intros; eauto; done.
    + simpl. repeat split; intros; eauto; done.
    + simpl. repeat split; intros; eauto; done.
    + destruct (handleSubmit_cases (ui w)) as [-> | ->]; simpl;
        repeat split; intros; eauto; done.
    + rewrite goToPrevious_result. simpl. repeat split; intros; eauto; done.
    + rewrite goToNext_result. simpl. repeat split; intros; eauto; done.
    + destruct (exportToExcel_frame (ui w) (ui w)) as [Hsame _].
      unfold stateAfter in Hsame. rewrite Hsame.
      repeat split; intros; done.
    + by destruct (Huser o).
  - simpl. destruct (failedOutcome o) eqn:Hfailed.
    + rewrite (resume_failed_state o (ui w) Hfailed). simpl.
      repeat split; intros; eauto; done.
    + unfold stateAfter.
      destruct (resume_cases o (ui w)) as (es & _ & [-> | [profile ->]]); simpl;
        repeat split; intros; eauto; done.
Qed.

Lemma cells_have_their_writers_witness :
  ∃ o, Settle (JsonResolved (JObj {[ "profile" := JArr [ada; bob] ]})) = Settle o
       ∧ failedOutcome o = false.
Proof.
  destruct (cells_have_their_writers _ _ _ loadedWorld_step)
    as (_ & _ & _ & Hlist & _).
  apply Hlist. discriminate.
Defined.

(** ** The experience and education sections *)

Lemma texts_renderEducation (edu : Education.t) :
  texts (renderEducation edu) = educationTexts edu.
Proof.
  unfold renderEducation, educationTexts. cbn [texts].
  rewrite !flat_map_app, texts_whenString, texts_descriptionList.
  cbn [flat_map texts]. by rewrite ?app_nil_r, !texts_textChild, <- app_assoc.
Qed.

Lemma texts_blocks {A} (render : A → VNode) (records : list A) :
  flat_map texts (map render records) = flat_map (λ r, texts (render r)) records.
Proof.
  induction records as [| r records IH]; [done |].
  cbn [map flat_map]. by rewrite IH.
Qed.

(** A section is rendered, heading included, exactly when its list is
    present and not empty: no heading is ever shown over nothing. When it is
    rendered it shows its heading and then one block per record, in the
    order of the list. *)
Theorem sections_need_records (profile : Profile.t) :
  (experienceSection profile = []
   ↔ Profile.experiences profile = None ∨ Profile.experiences profile = Some [])
  ∧ (educationSection profile = []
     ↔ Profile.education profile = None ∨ Profile.education profile = Some [])
  ∧ (∀ exps, Profile.experiences profile = Some exps → exps ≠ [] →
       flat_map texts (experienceSection profile)
       = "Experience" :: flat_map (λ exp, texts (renderExperience exp)) exps)
  ∧ (∀ schools, Profile.education profile = Some schools → schools ≠ [] →
       flat_map texts (educationSection profile)
       = "Education" :: flat_map educationTexts schools).
Proof.
  unfold experienceSection, educationSection.
  split; [| split; [| split]].
  - destruct (Profile.experiences profile) as [[| exp rest] |];
      split; auto; try done; by intros [? | ?].
  - destruct (Profile.education profile) as [[| edu rest] |];
      split; auto; try done; by intros [? | ?].
  - intros exps -> Hsome. destruct exps as [| exp rest]; [done |].
    cbn [flat_map texts]. rewrite !app_nil_r.
    by rewrite (texts_blocks renderExperience (exp :: rest)).
  - intros schools -> Hsome. destruct schools as [| edu rest]; [done |].
    cbn [flat_map texts]. rewrite !app_nil_r.
    rewrite (texts_blocks renderEducation (edu :: rest)).
    by rewrite (flat_map_ext _ educationTexts texts_renderEducation).
Qed.

Lemma sections_need_records_witness :
  flat_map texts (educationSection adaProfile)
  = ["Education"; "Trinity"; "BA Mathematics"; "1832"; "Tutored by De Morgan";
     "Academy"; "Diploma"]
  ∧ flat_map texts (experienceSection adaProfile)
    = ["Experience"; "Difference"; "Analyst"; "2021 - 2024"; "Wrote notes"].
Proof.
  destruct (sections_need_records adaProfile) as (_ & _ & Hexperience & Heducation).
  split.
  - rewrite (Heducation [school; academy]); [reflexivity | reflexivity | discriminate].
  - rewrite (Hexperience [job]); [reflexivity | reflexivity | discriminate].
Defined.

(** An education record shows its institution, its degree, its date and the
    lines of its details, in this order and nothing else; an empty date and
    an empty details list leave no element behind. *)
Theorem education_block_shows_its_fields (edu : Education.t) :
  texts (renderEducation edu)
  = shown (Some (Education.institution edu)) ++ shown (Some (Education.degree edu))
    ++ shown (Some (Education.date edu))
    ++ flat_map (λ line, shown (Some line)) (Education.details edu)
  ∧ (Education.date edu = "" → Education.details edu = [] →
     renderEducation edu
     = Elem "div" "border-l-2 border-gray-200 pl-4"
         [Elem "h5" "font-medium text-gray-900"
            (textChild (Some (Education.institution edu)));
          Elem "p" "text-gray-800" (textChild (Some (Education.degree edu)))]).
Proof.
  split; [apply texts_renderEducation |].
  intros Hdate Hdetails. unfold renderEducation.
  by rewrite Hdate, Hdetails.
Qed.

(** ** From the response to the carousel *)


